(** * system_monitor.py: the monitoring loop and its rotating log

    A shallow embedding of [src/system_monitor.py] (class [SystemMonitor]) with
    the part of the Python runtime it drives:

    - Python values: [str] as [string] (its UTF-8 bytes), [int] as [Z],
      [float] behind the interface [Float], dictionaries with fixed keys as
      records, exceptions as [exn];
    - effects: an exception-and-state monad [M] over a [World] that holds the
      log files, the open log streams, the host's static facts and the
      chronological trace of every call that leaves the process (provider
      queries, logger calls, console writes, sleeps);
    - the providers ([psutil], [GPUtil], the clock, the console, [time.sleep])
      answer from an environment script: one [TickEnv] per iteration of the
      [while True] loop, so that a run is total and an interrupt or a failure
      can arrive at any call of any tick;
    - [logging]: the logger's level filter, the formatter and the rotating
      file handler as [_setup_logger] configures them. *)

From Stdlib Require Import ZArith QArith Qround String Ascii DecimalString List Lia Lqa.
From stdpp Require Import gmap strings list.

#[local] Open Scope Z_scope.


(** ** Python values *)

(** The exceptions a call of this program can meet: [KeyboardInterrupt], which
    derives from [BaseException] only and is raised by the interpreter when
    SIGINT arrives, and the instances of [Exception], kept with their [str(e)].
    No call of the program raises [SystemExit] or [GeneratorExit]. *)
Inductive exn : Type :=
| KeyboardInterrupt
| Exception (msg : string).

(** [isinstance(e, Exception)], the test of an [except Exception] clause. *)
Definition isinstance_Exception (e : exn) : bool :=
  match e with
  | KeyboardInterrupt => false
  | Exception _ => true
  end.

(** [f"{e}"] *)
Definition str_exn (e : exn) : string :=
  match e with
  | KeyboardInterrupt => ""
  | Exception msg => msg
  end.

(** What a call does: it returns a value or raises. *)
Inductive outcome (A : Type) : Type :=
| Returns (a : A)
| Raises (e : exn).
Arguments Returns {A} a.
Arguments Raises {A} e.

(** Python's [float] and the operations the source applies to it. The source
    never inspects a float's bits, so the embedding is parametric in them. *)
Class Float : Type := {
  float : Type;
  (** [float(n)], also the implicit conversion of [100] in [x * 100] *)
  float_of_int : Z -> float;
  (** [x * y] *)
  fmul : float -> float -> float;
  (** [a / b] on two [int]s (true division) *)
  truediv : Z -> Z -> float;
  (** [round(x, ndigits)] *)
  round : float -> Z -> float;
  (** [x <= y] *)
  fle : float -> float -> Prop;
  (** [str(x)], which is what [f"{x}"] inserts *)
  float_str : float -> string
}.

(** [x] and [y] compare equal ([0.0] and [-0.0] do). *)
Definition feq `{Float} (x y : float) : Prop := fle x y /\ fle y x.

(** The facts of float arithmetic the range claims rest on. Each holds of
    IEEE 754 binary64 with Python's correctly rounded [round], and of exact
    rational arithmetic. *)
Class FloatLaws (F : Float) : Prop := {
  fle_trans : forall x y z : float, fle x y -> fle y z -> fle x z;
  fle_of_int : forall a b : Z, a <= b -> fle (float_of_int a) (float_of_int b);
  fmul_mono : forall (x y : float) (c : Z),
    0 < c -> fle x y -> fle (fmul x (float_of_int c)) (fmul y (float_of_int c));
  fmul_of_int : forall a b : Z,
    Z.abs a <= 2 ^ 53 -> Z.abs b <= 2 ^ 53 -> Z.abs (a * b) <= 2 ^ 53 ->
    feq (fmul (float_of_int a) (float_of_int b)) (float_of_int (a * b));
  round_mono : forall (x y : float) (n : Z), fle x y -> fle (round x n) (round y n);
  round_of_int : forall k n : Z, 0 <= n -> feq (round (float_of_int k) n) (float_of_int k);
  truediv_nonneg : forall a b : Z, 0 <= a -> 0 < b -> fle (float_of_int 0) (truediv a b)
}.

(** ** Text *)

Definition newline : string := String "010" "".

(** [str(n)] for an [int] *)
Definition str_int (n : Z) : string := NilZero.string_of_int (Z.to_int n).

Definition is_digit (c : ascii) : bool :=
  (48 <=? nat_of_ascii c)%nat && (nat_of_ascii c <=? 57)%nat.

(** The decimal digit of [n]'s units. *)
Definition digit (n : nat) : ascii := ascii_of_nat (48 + n mod 10).

(** [s.count(c)] *)
Fixpoint count_char (c : ascii) (s : string) : nat :=
  match s with
  | EmptyString => 0
  | String d s' => (if Ascii.eqb c d then 1 else 0) + count_char c s'
  end.

Fixpoint contains_char (c : ascii) (s : string) : bool :=
  match s with
  | EmptyString => false
  | String d s' => Ascii.eqb c d || contains_char c s'
  end.

(** [s.startswith(p)] *)
Fixpoint startswith (p s : string) : bool :=
  match p, s with
  | EmptyString, _ => true
  | String a p', String b s' => Ascii.eqb a b && startswith p' s'
  | String _ _, EmptyString => false
  end.

(** The lines of a text file: a newline closes a line, and what follows the
    last newline, if anything, is a line as well. *)
Fixpoint file_lines (s : string) : list string :=
  match s with
  | EmptyString => []
  | String c s' =>
      if Ascii.eqb c "010" then EmptyString :: file_lines s'
      else match file_lines s' with
           | [] => [String c EmptyString]
           | l :: ls => String c l :: ls
           end
  end.

(** *** [repr] of a [str], as [str(dict)] renders the dictionary's strings *)

Definition squote : ascii := "039".
Definition dquote : ascii := "034".
Definition backslash : ascii := "092".

Definition hex_digit (n : nat) : ascii :=
  if (n <? 10)%nat then ascii_of_nat (48 + n) else ascii_of_nat (87 + n).

Definition repr_char (q : ascii) (c : ascii) : string :=
  let n := nat_of_ascii c in
  if Ascii.eqb c q || Ascii.eqb c backslash then String backslash (String c "")
  else if Ascii.eqb c "009" then String backslash "t"
  else if Ascii.eqb c "010" then String backslash "n"
  else if Ascii.eqb c "013" then String backslash "r"
  else if (n <? 32)%nat || (n =? 127)%nat then
    String backslash (String "x" (String (hex_digit (n / 16)) (String (hex_digit (n mod 16)) "")))
  else String c "".

Fixpoint repr_body (q : ascii) (s : string) : string :=
  match s with
  | EmptyString => ""
  | String c s' => repr_char q c +:+ repr_body q s'
  end.

Definition repr_str (s : string) : string :=
  let q := if contains_char squote s && negb (contains_char dquote s) then dquote else squote in
  String q (repr_body q s +:+ String q "").

(** *** [time.strftime] *)

(** A broken-down local time. Its fields stay in their calendar ranges, and
    the year has four digits. *)
Record struct_time : Type := {
  tm_year : nat;
  tm_mon : nat;
  tm_mday : nat;
  tm_hour : nat;
  tm_min : nat;
  tm_sec : nat
}.

Definition two_digits (n : nat) : string :=
  String (digit (n / 10)) (String (digit n) "").

Definition four_digits (n : nat) : string :=
  String (digit (n / 1000)) (String (digit (n / 100)) (two_digits n)).

Definition strftime_directive (c : ascii) (t : struct_time) : string :=
  if Ascii.eqb c "Y" then four_digits (tm_year t)
  else if Ascii.eqb c "m" then two_digits (tm_mon t)
  else if Ascii.eqb c "d" then two_digits (tm_mday t)
  else if Ascii.eqb c "H" then two_digits (tm_hour t)
  else if Ascii.eqb c "M" then two_digits (tm_min t)
  else if Ascii.eqb c "S" then two_digits (tm_sec t)
  else String "%" (String c "").

(** [time.strftime(fmt, t)] for the directives above; other text is copied. *)
Fixpoint strftime_from (pending : bool) (fmt : string) (t : struct_time) : string :=
  match fmt with
  | EmptyString => if pending then "%" else ""
  | String c fmt' =>
      if pending then strftime_directive c t +:+ strftime_from false fmt' t
      else if Ascii.eqb c "%" then strftime_from true fmt' t
      else String c (strftime_from false fmt' t)
  end.
Definition strftime (fmt : string) (t : struct_time) : string := strftime_from false fmt t.

(** *** [%]-formatting with a mapping: [fmt % d] for [%(key)s] directives *)

Inductive fmt_state : Type :=
| InText
| AfterPercent
| InKey (key : string)
| AfterKey (key : string).

Fixpoint percent_format_from (st : fmt_state) (fmt : string) (d : string -> string) : string :=
  match fmt with
  | EmptyString => ""
  | String c fmt' =>
      match st with
      | InText =>
          if Ascii.eqb c "%" then percent_format_from AfterPercent fmt' d
          else String c (percent_format_from InText fmt' d)
      | AfterPercent =>
          if Ascii.eqb c "(" then percent_format_from (InKey "") fmt' d
          else String c (percent_format_from InText fmt' d)
      | InKey key =>
          if Ascii.eqb c ")" then percent_format_from (AfterKey key) fmt' d
          else percent_format_from (InKey (key +:+ String c "")) fmt' d
      | AfterKey key => d key +:+ percent_format_from InText fmt' d
      end
  end.
Definition percent_format (fmt : string) (d : string -> string) : string :=
  percent_format_from InText fmt d.

(** ** The world outside the interpreter *)

(** The library calls by which the program reads its host. *)
Inductive query : Type :=
| platform_system
| platform_version
| platform_machine
| psutil_cpu_count
| psutil_virtual_memory
| psutil_cpu_percent
| GPUtil_getGPUs.

#[export] Instance query_eq_dec : EqDecision query.
Proof. solve_decision. Defined.

(** [logging]'s levels. *)
Inductive Level : Type := DEBUG | INFO | WARNING | ERROR | CRITICAL.

Definition levelno (l : Level) : Z :=
  match l with
  | DEBUG => 10
  | INFO => 20
  | WARNING => 30
  | ERROR => 40
  | CRITICAL => 50
  end.

Definition levelname (l : Level) : string :=
  match l with
  | DEBUG => "DEBUG"
  | INFO => "INFO"
  | WARNING => "WARNING"
  | ERROR => "ERROR"
  | CRITICAL => "CRITICAL"
  end.

(** What the process does that can be seen from outside, in the order it does
    it. [ELog] is a call of a logger method, whether or not the logger's level
    lets the record through. *)
Inductive event : Type :=
| EQuery (q : query)
| ELog (lvl : Level) (msg : string)
| EStdout (text : string)
| EFlush
| ESleep (secs : Z).

(** The facts [_get_os_info] reads. They belong to the host and no call of
    the program writes them. [host_cpu_count] is [None] when psutil cannot
    determine the count. *)
Record Host : Type := {
  host_system : string;
  host_version : string;
  host_machine : string;
  host_cpu_count : option Z;
  host_total_memory : Z
}.

(** A log file is named by the handler's base name and a backup index: index
    [0] is the base file itself, index [i > 0] the file [base.i]. *)
Record World : Type := {
  host : Host;
  fs : gmap (string * nat) string;
  open_streams : gset string;
  trace : list event
}.

Definition set_fs (f : gmap (string * nat) string -> gmap (string * nat) string) (w : World) : World :=
  {| host := host w; fs := f (fs w); open_streams := open_streams w; trace := trace w |}.

Definition set_open_streams (f : gset string -> gset string) (w : World) : World :=
  {| host := host w; fs := fs w; open_streams := f (open_streams w); trace := trace w |}.

Definition record_event (ev : event) (w : World) : World :=
  {| host := host w; fs := fs w; open_streams := open_streams w; trace := trace w ++ [ev] |}.

(** ** Computations: state and exceptions *)

Definition M (A : Type) : Type := World -> outcome A * World.

#[export] Instance M_ret : MRet M := fun A (a : A) w => (Returns a, w).

#[export] Instance M_bind : MBind M := fun A B (f : A -> M B) (m : M A) w =>
  match m w with
  | (Returns a, w') => f a w'
  | (Raises e, w') => (Raises e, w')
  end.

(** [raise e] *)
Definition raise {A : Type} (e : exn) : M A := fun w => (Raises e, w).

(** A step that changes the world and cannot fail. *)
Definition effect (f : World -> World) : M unit := fun w => (Returns tt, f w).

(** A call into a library whose answer the environment supplies; the call is
    recorded whether it returns or raises. *)
Definition external {A : Type} (ev : event) (answer : outcome A) : M A :=
  fun w => (answer, record_event ev w).

(** [try: body / except Exception as e: handler(e)]: an instance of
    [Exception] is handled, [KeyboardInterrupt] passes through. *)
Definition try_except_Exception {A : Type} (body : M A) (handler : exn -> M A) : M A :=
  fun w =>
    match body w with
    | (Raises e, w') => if isinstance_Exception e then handler e w' else (Raises e, w')
    | r => r
    end.

(** ** [logging] *)

Module logging.

Definition NOTSET : Z := 0.

(** The fields of a [LogRecord] the format string reads. *)
Record LogRecord : Type := {
  created : struct_time;
  level : Level;
  msg : string
}.

Record Formatter : Type := {
  fmt : string;
  datefmt : string
}.

(** [Formatter.format]: [record.asctime] is [time.strftime(datefmt, ...)] of
    the creation time (with a [datefmt] no milliseconds are appended), and the
    record carries no arguments and no exception information, so the result is
    [fmt % record.__dict__]. *)
Definition format (f : Formatter) (r : LogRecord) : string :=
  percent_format (fmt f) (fun key =>
    if String.eqb key "asctime" then strftime (datefmt f) (created r)
    else if String.eqb key "levelname" then levelname (level r)
    else if String.eqb key "message" then msg r
    else "").

(** Modelled from the spec: the rotating log sink of section 4.3, which the
    source takes from [logging.handlers.RotatingFileHandler] of the Python
    standard library (not under src/). Missing are its size check, its
    rollover and its write. The size check is the library's
    [pos + len(line) >= maxBytes], which rotates whenever the spec's "appending
    would exceed max_bytes" holds and also when the write would exactly reach
    the cap. *)
Record RotatingFileHandler : Type := {
  baseFilename : string;
  maxBytes : Z;
  backupCount : nat;
  handler_level : Z;
  formatter : Formatter
}.

Definition rotation_filename (h : RotatingFileHandler) (i : nat) : string * nat :=
  (baseFilename h, i).

Definition file_size (p : string * nat) (files : gmap (string * nat) string) : Z :=
  Z.of_nat (String.length (default "" (files !! p))).

(** [os.rename(src, dst)] when [src] exists; [dst] is replaced. *)
Definition os_rename (src dst : string * nat) (files : gmap (string * nat) string)
  : gmap (string * nat) string :=
  match files !! src with
  | Some content => <[dst := content]> (delete src files)
  | None => files
  end.

(** Opening in append mode: an existing file keeps its content, a missing one
    is created empty. *)
Definition open_append (p : string * nat) (files : gmap (string * nat) string)
  : gmap (string * nat) string :=
  match files !! p with
  | Some _ => files
  | None => <[p := ""]> files
  end.

(** [stream.write(text)] at the end of the file. *)
Definition append_text (p : string * nat) (text : string) (files : gmap (string * nat) string)
  : gmap (string * nat) string :=
  <[p := default "" (files !! p) +:+ text]> files.

(** [self._open()] *)
Definition open_stream (h : RotatingFileHandler) (w : World) : World :=
  set_open_streams (fun s => {[baseFilename h]} ∪ s)
    (set_fs (open_append (rotation_filename h 0)) w).

(** One turn of the rollover loop: backup [i], if it exists, becomes backup
    [i + 1], replacing it. *)
Definition shift_backup (h : RotatingFileHandler) (files : gmap (string * nat) string) (i : nat)
  : gmap (string * nat) string :=
  os_rename (rotation_filename h i) (rotation_filename h (i + 1)) files.

(** [doRollover]: close the stream, shift the backups [backupCount - 1 .. 1]
    up by one (the oldest is overwritten), move the active file to backup 1,
    open a fresh active file. *)
Definition doRollover (h : RotatingFileHandler) (w : World) : World :=
  let w := set_open_streams (fun s => s ∖ {[baseFilename h]}) w in
  let w :=
    if (0 <? backupCount h)%nat then
      set_fs (fun files =>
        let files := foldl (shift_backup h) files (rev (seq 1 (backupCount h - 1))) in
        os_rename (rotation_filename h 0) (rotation_filename h 1)
          (delete (rotation_filename h 1) files)) w
    else w in
  open_stream h w.

(** The text a record contributes to the file. *)
Definition record_line (h : RotatingFileHandler) (r : LogRecord) : string :=
  format (formatter h) r +:+ newline.

(** [shouldRollover] *)
Definition shouldRollover (h : RotatingFileHandler) (r : LogRecord) (w : World) : bool :=
  (0 <? maxBytes h) &&
  (maxBytes h <=? file_size (rotation_filename h 0) (fs w)
                  + Z.of_nat (String.length (record_line h r))).

(** [emit]: roll over first if the record would not fit, then write it. *)
Definition emit (h : RotatingFileHandler) (r : LogRecord) (w : World) : World :=
  let w := if shouldRollover h r w then doRollover h w else w in
  set_fs (append_text (rotation_filename h 0) (record_line h r)) (open_stream h w).

Record Logger : Type := {
  name : string;
  logger_level : Z;
  handlers : list RotatingFileHandler
}.

(** [logging.getLogger(name)] for a name not configured before. *)
Definition getLogger (n : string) : Logger :=
  {| name := n; logger_level := NOTSET; handlers := [] |}.

Definition setLevel (lg : Logger) (l : Level) : Logger :=
  {| name := name lg; logger_level := levelno l; handlers := handlers lg |}.

Definition addHandler (lg : Logger) (h : RotatingFileHandler) : Logger :=
  {| name := name lg; logger_level := logger_level lg; handlers := handlers lg ++ [h] |}.

Definition setFormatter (h : RotatingFileHandler) (f : Formatter) : RotatingFileHandler :=
  {| baseFilename := baseFilename h; maxBytes := maxBytes h; backupCount := backupCount h;
     handler_level := handler_level h; formatter := f |}.

(** A logger whose level is [NOTSET] takes the root logger's, [WARNING]. *)
Definition getEffectiveLevel (lg : Logger) : Z :=
  if logger_level lg =? NOTSET then levelno WARNING else logger_level lg.

Definition isEnabledFor (lg : Logger) (l : Level) : bool :=
  getEffectiveLevel lg <=? levelno l.

(** [callHandlers]: every handler whose own level admits the record emits it. *)
Definition callHandlers (lg : Logger) (r : LogRecord) (w : World) : World :=
  foldl (fun w h => if handler_level h <=? levelno (level r) then emit h r w else w)
    w (handlers lg).

(** [Logger.log(level, msg)], at the wall-clock time [now]. *)
Definition log (lg : Logger) (now : struct_time) (l : Level) (m : string) : M unit :=
  effect (fun w =>
    let w := record_event (ELog l m) w in
    if isEnabledFor lg l
    then callHandlers lg {| created := now; level := l; msg := m |} w
    else w).

Definition debug (lg : Logger) (now : struct_time) (m : string) : M unit := log lg now DEBUG m.
Definition info (lg : Logger) (now : struct_time) (m : string) : M unit := log lg now INFO m.
Definition critical (lg : Logger) (now : struct_time) (m : string) : M unit := log lg now CRITICAL m.

(** [RotatingFileHandler(filename, maxBytes=..., backupCount=...)]: the
    stream is opened at once, in append mode. *)
Definition new_RotatingFileHandler (filename : string) (max_bytes : Z) (backup_count : nat)
  : M RotatingFileHandler :=
  let h := {| baseFilename := filename; maxBytes := max_bytes; backupCount := backup_count;
              handler_level := NOTSET;
              formatter := {| fmt := "%(message)s"; datefmt := "%Y-%m-%d %H:%M:%S" |} |} in
  _ ← effect (open_stream h); mret h.

End logging.

(** ** The providers *)

Module psutil.
Section svmem.
Context `{F : Float}.

(** The fields of [psutil.virtual_memory()] the program reads, and [free]. *)
Record svmem : Type := {
  total : Z;
  available : Z;
  percent : float;
  used : Z;
  free : Z
}.

End svmem.
End psutil.

Module GPUtil.
Section GPU.
Context `{F : Float}.

(** A device as [GPUtil.getGPUs()] lists it: [load] is a float, [name] a
    string, both plain attributes set when the list is built. *)
Record GPU : Type := {
  load : float;
  name : string
}.

End GPU.
End GPUtil.

(** ** The program *)

Definition LOG_FILENAME : string := "system_monitor.log".
Definition LOG_FORMAT : string := "%(asctime)s | %(levelname)s | %(message)s".

(** [print(text)] *)
Definition print (text : string) : M unit :=
  effect (record_event (EStdout (text +:+ newline))).

(** A query answered from the host's static facts. *)
Definition query_host {A : Type} (q : query) (read : Host -> A) : M A :=
  fun w => (Returns (read (host w)), record_event (EQuery q) w).

Section SystemMonitor.
Context `{F : Float}.

(** The dictionary [_get_os_info] returns. *)
Record OsInfo : Type := {
  OS : string;
  Version : string;
  Arch : string;
  Cores : option Z;
  Total_RAM : string
}.

(** [str(d)] of that dictionary. *)
Definition str_OsInfo (d : OsInfo) : string :=
  "{'OS': " +:+ repr_str (OS d) +:+
  ", 'Version': " +:+ repr_str (Version d) +:+
  ", 'Arch': " +:+ repr_str (Arch d) +:+
  ", 'Cores': " +:+ match Cores d with Some n => str_int n | None => "None" end +:+
  ", 'Total_RAM': " +:+ repr_str (Total_RAM d) +:+ "}".

(** The dictionary [_get_gpu_info] returns. *)
Record GpuData : Type := {
  usage : float;
  name : string
}.

(** The dictionary [fetch_metrics] returns. *)
Record Metrics : Type := {
  cpu_usage : float;
  ram_usage : float;
  ram_used : float;
  ram_free : float;
  gpu_usage : float;
  gpu_name : string
}.

Record SystemMonitor : Type := {
  interval : Z;
  log_file : string;
  logger : logging.Logger;
  os_info : OsInfo
}.

(** What the environment answers during one iteration of the loop: the clock
    the logger reads, and the outcome of each call that leaves the program. A
    call placed after one that raises is never made. *)
Record TickEnv : Type := {
  now : struct_time;
  cpu_percent : outcome float;
  virtual_memory : outcome psutil.svmem;
  getGPUs : outcome (list GPUtil.GPU);
  stdout_write : outcome unit;
  stdout_flush : outcome unit;
  sleep : outcome unit
}.

(** The environment of a whole run: the clock at the startup header, the
    iterations, and the clock when the loop is left. *)
Record RunEnv : Type := {
  start_time : struct_time;
  ticks : list TickEnv;
  stop_time : struct_time
}.

Definition _setup_logger (log_file : string) : M logging.Logger :=
  let logger := logging.getLogger "SystemMonitor" in
  let logger := logging.setLevel logger INFO in
  handler ← logging.new_RotatingFileHandler log_file (5 * 1024 * 1024) 3;
  let formatter := {| logging.fmt := LOG_FORMAT; logging.datefmt := "%Y-%m-%d %H:%M:%S" |} in
  let handler := logging.setFormatter handler formatter in
  let logger := logging.addHandler logger handler in
  mret logger.

Definition _get_os_info : M OsInfo :=
  system ← query_host platform_system host_system;
  version ← query_host platform_version host_version;
  machine ← query_host platform_machine host_machine;
  cores ← query_host psutil_cpu_count host_cpu_count;
  total ← query_host psutil_virtual_memory host_total_memory;
  mret {| OS := system;
          Version := version;
          Arch := machine;
          Cores := cores;
          Total_RAM := float_str (round (truediv total (1024 ^ 3)) 2) +:+ " GB" |}.

Definition __init__ (interval : Z) (log_file : string) : M SystemMonitor :=
  logger ← _setup_logger log_file;
  os_info ← _get_os_info;
  mret {| interval := interval; log_file := log_file; logger := logger; os_info := os_info |}.

Definition _get_gpu_info (self : SystemMonitor) (now : struct_time)
    (answer : outcome (list GPUtil.GPU)) : M GpuData :=
  let gpu_data := {| usage := float_of_int 0; name := "N/A" |} in
  try_except_Exception
    (gpus ← external (EQuery GPUtil_getGPUs) answer;
     match gpus with
     | gpu :: _ =>
         let gpu_data :=
           {| usage := round (fmul (GPUtil.load gpu) (float_of_int 100)) 2;
              name := name gpu_data |} in
         let gpu_data := {| usage := usage gpu_data; name := GPUtil.name gpu |} in
         mret gpu_data
     | [] => mret gpu_data
     end)
    (fun e =>
       _ ← logging.debug (logger self) now ("Could not retrieve GPU info: " +:+ str_exn e);
       mret gpu_data).

Definition fetch_metrics (self : SystemMonitor) (t : TickEnv) : M Metrics :=
  cpu_usage ← external (EQuery psutil_cpu_percent) (cpu_percent t);
  ram ← external (EQuery psutil_virtual_memory) (virtual_memory t);
  gpu_info ← _get_gpu_info self (now t) (getGPUs t);
  mret {| cpu_usage := cpu_usage;
          ram_usage := psutil.percent ram;
          ram_used := round (truediv (psutil.used ram) (1024 ^ 2)) 2;
          ram_free := round (truediv (psutil.available ram) (1024 ^ 2)) 2;
          gpu_usage := usage gpu_info;
          gpu_name := name gpu_info |}.

Definition header (info : OsInfo) : string :=
  "--- MONITOR STARTED ---" +:+ newline +:+ "System Info: " +:+ str_OsInfo info.

Definition log_system_info (self : SystemMonitor) (now : struct_time) : M unit :=
  logging.info (logger self) now (header (os_info self)).

(** The message of the per-tick record. *)
Definition log_msg (metrics : Metrics) : string :=
  "CPU: " +:+ float_str (cpu_usage metrics) +:+ "% | " +:+
  "RAM: " +:+ float_str (ram_usage metrics) +:+ "% (" +:+ float_str (ram_used metrics) +:+ "MB Used) | " +:+
  "GPU: " +:+ float_str (gpu_usage metrics) +:+ "% (" +:+ gpu_name metrics +:+ ")".

(** The line that overwrites the console's current one. *)
Definition live_line (metrics : Metrics) : string :=
  String "013" "[LIVE] CPU: " +:+ float_str (cpu_usage metrics) +:+
  "% | RAM: " +:+ float_str (ram_usage metrics) +:+
  "% | GPU: " +:+ float_str (gpu_usage metrics) +:+ "%   ".

(** The body of [while True]. *)
Definition loop_body (self : SystemMonitor) (t : TickEnv) : M unit :=
  metrics ← fetch_metrics self t;
  _ ← logging.info (logger self) (now t) (log_msg metrics);
  _ ← external (EStdout (live_line metrics)) (stdout_write t);
  _ ← external EFlush (stdout_flush t);
  external (ESleep (interval self)) (sleep t).

(** [while True: body]: the loop is left only by an exception; [None] says
    that the script ended with the loop still running. *)
Fixpoint while_True (body : TickEnv -> M unit) (script : list TickEnv) (w : World)
  : option exn * World :=
  match script with
  | [] => (None, w)
  | t :: script' =>
      match body t w with
      | (Returns _, w') => while_True body script' w'
      | (Raises e, w') => (Some e, w')
      end
  end.

(** How a call of [run] stands when the script ends. *)
Inductive status : Type :=
| Running
| Returned.

Definition STOPPED : string := "--- MONITOR STOPPED ---".

(** The [try] block of [run]: the loop, observed until it raises or the
    script ends. *)
Definition try_loop (self : SystemMonitor) (script : list TickEnv) : M (option exn) :=
  fun w =>
    match while_True (loop_body self) script w with
    | (raised, w') => (Returns raised, w')
    end.

(** The lines of [run] before its [try]: the banner and the header record. *)
Definition startup (self : SystemMonitor) (env : RunEnv) : M unit :=
  _ ← print ("System monitoring service started. (Log file: " +:+ log_file self +:+ ")");
  _ ← print ("Press CTRL+C to exit." +:+ newline);
  log_system_info self (start_time env).

Definition run (self : SystemMonitor) (env : RunEnv) : M status :=
  _ ← startup self env;
  raised ← try_loop self (ticks env);
  match raised with
  | None => mret Running
  | Some KeyboardInterrupt =>
      _ ← print (newline +:+ newline +:+ "Stopping service...");
      _ ← logging.info (logger self) (stop_time env) STOPPED;
      mret Returned
  | Some (Exception _ as e) =>
      _ ← logging.critical (logger self) (stop_time env) ("Unexpected error: " +:+ str_exn e);
      _ ← print (newline +:+ "An error occurred: " +:+ str_exn e);
      mret Returned
  end.


End SystemMonitor.

(** A process starts with no stream open and nothing done yet. *)
Definition initial_world (h : Host) (files : gmap (string * nat) string) : World :=
  {| host := h; fs := files; open_streams := ∅; trace := [] |}.

(** ** Exact rational arithmetic as a [Float]

    An instance to run the program on: rationals with exact multiplication
    and division, and [round] to the nearest multiple of [10 ^ -ndigits],
    ties to the even one, which is what Python's [round] returns on a float
    whose exact value is the rational. *)

(** The integer nearest to [q], ties to even. *)
Definition Q_nearest_even (q : Q) : Z :=
  let f := Qfloor q in
  match Qcompare (q - inject_Z f)%Q (1 # 2)%Q with
  | Lt => f
  | Gt => f + 1
  | Eq => if Z.even f then f else f + 1
  end.

Definition Q_round (q : Q) (ndigits : Z) : Q :=
  if 0 <=? ndigits
  then (inject_Z (Q_nearest_even (q * inject_Z (10 ^ ndigits))) / inject_Z (10 ^ ndigits))%Q
  else (inject_Z (Q_nearest_even (q / inject_Z (10 ^ (- ndigits)))) * inject_Z (10 ^ (- ndigits)))%Q.

(** [n] zeros. *)
Fixpoint zeros (n : nat) : string :=
  match n with
  | O => EmptyString
  | S n' => String "0" (zeros n')
  end.

(** [s] without its trailing zeros. *)
Fixpoint strip_zeros (s : string) : string :=
  match s with
  | EmptyString => EmptyString
  | String c s' =>
      match strip_zeros s' with
      | EmptyString => if Ascii.eqb c "0" then EmptyString else String c EmptyString
      | r => String c r
      end
  end.

(** The first [places] decimal digits of [rem / den] after the point, for
    [0 <= rem < den], without trailing zeros. *)
Definition fraction_digits (places : nat) (rem den : Z) : string :=
  let scaled := str_int (rem * 10 ^ Z.of_nat places / den) in
  strip_zeros (zeros (places - String.length scaled) +:+ scaled).

(** [str] of a float with a short decimal expansion: ["12.5"], ["40.0"]. *)
Definition Q_str (q : Q) : string :=
  let n := Z.abs (Qnum q) in
  let d := Z.pos (Qden q) in
  let frac := fraction_digits 17 (n mod d) d in
  (if Qnum q <? 0 then "-" else "") +:+ str_int (n / d) +:+ "." +:+
  (match frac with EmptyString => "0" | _ => frac end).

Definition Q_Float : Float := {|
  float := Q;
  float_of_int := inject_Z;
  fmul := Qmult;
  truediv := fun a b => (inject_Z a / inject_Z b)%Q;
  round := Q_round;
  fle := Qle;
  float_str := Q_str
|}.

(** ** Vocabulary of the statements *)

(** The world a computation leaves, and its result. *)
Definition world_after {A : Type} (m : M A) (w : World) : World := snd (m w).
Definition result_of {A : Type} (m : M A) (w : World) : outcome A := fst (m w).

(** The content of a log file; a missing file reads as empty. *)
Definition content (w : World) (p : string * nat) : string := default "" (fs w !! p).

(** The number of events of a trace that satisfy [p]. *)
Definition count_events (p : event -> bool) (tr : list event) : nat :=
  length (List.filter p tr).


Definition is_log (ev : event) : bool :=
  match ev with
  | ELog _ _ => true
  | _ => false
  end.


(** [shape] pictures a text: [d] stands for any decimal digit, every other
    character for itself. The result is what follows the pictured prefix. *)
Fixpoint match_shape (shape s : string) : option string :=
  match shape, s with
  | EmptyString, _ => Some s
  | String _ _, EmptyString => None
  | String p shape', String c s' =>
      if (if Ascii.eqb p "d" then is_digit c else Ascii.eqb p c)
      then match_shape shape' s'
      else None
  end.

(** A line of the form [YYYY-MM-DD HH:MM:SS | LEVEL | message]. *)
Definition is_record_line (s : string) : bool :=
  match match_shape "dddd-dd-dd dd:dd:dd | " s with
  | Some rest =>
      existsb (fun l => startswith (levelname l +:+ " | ") rest)
        [DEBUG; INFO; WARNING; ERROR; CRITICAL]
      && negb (contains_char "010" s)
  | None => false
  end.



(** A sequence of writes. *)
Definition emit_all (h : logging.RotatingFileHandler) (rs : list logging.LogRecord) (w : World)
  : World :=
  foldl (fun w r => logging.emit h r w) w rs.

Section Ranges.
Context `{F : Float}.

(** What the range claim assumes of the providers: percentages in
    [0, 100], byte counts that are not negative, GPU loads in [0, 1]. *)
Definition providers_in_range (t : TickEnv) : Prop :=
  (forall c, cpu_percent t = Returns c ->
     fle (float_of_int 0) c /\ fle c (float_of_int 100)) /\
  (forall ram, virtual_memory t = Returns ram ->
     fle (float_of_int 0) (psutil.percent ram) /\ fle (psutil.percent ram) (float_of_int 100) /\
     0 <= psutil.used ram /\ 0 <= psutil.available ram) /\
  (forall gpus, getGPUs t = Returns gpus ->
     Forall (fun gpu => fle (float_of_int 0) (GPUtil.load gpu) /\
                        fle (GPUtil.load gpu) (float_of_int 1)) gpus).

Definition percentage (x : float) : Prop :=
  fle (float_of_int 0) x /\ fle x (float_of_int 100).

Definition well_formed (m : Metrics) : Prop :=
  percentage (cpu_usage m) /\
  percentage (ram_usage m) /\
  fle (float_of_int 0) (ram_used m) /\
  fle (float_of_int 0) (ram_free m) /\
  percentage (gpu_usage m).

(** The GPU query gave no device to report. *)
Definition gpu_unavailable (t : TickEnv) : Prop :=
  getGPUs t = Returns [] \/ exists msg, getGPUs t = Raises (Exception msg).

End Ranges.

(** ** A host to run on *)

Section Example.
#[local] Existing Instance Q_Float.

Definition example_host : Host := {|
  host_system := "Linux";
  host_version := "#1 SMP PREEMPT_DYNAMIC";
  host_machine := "x86_64";
  host_cpu_count := Some 8;
  host_total_memory := 16624967680
|}.

Definition example_time : struct_time := {|
  tm_year := 2024; tm_mon := 3; tm_mday := 7; tm_hour := 9; tm_min := 5; tm_sec := 59
|}.

Definition example_ram : psutil.svmem := {|
  psutil.total := 16624967680;
  psutil.available := 2516582400;
  psutil.percent := ((40 # 1)%Q : float);
  psutil.used := 1677721600;
  psutil.free := 1258291200
|}.

(** A tick whose CPU and memory queries answer with fixed values. *)
Definition example_tick (gpus : outcome (list GPUtil.GPU)) (slept : outcome unit) : TickEnv := {|
  now := example_time;
  cpu_percent := Returns ((25 # 2)%Q : float);
  virtual_memory := Returns example_ram;
  getGPUs := gpus;
  stdout_write := Returns tt;
  stdout_flush := Returns tt;
  sleep := slept
|}.

Definition example_gpu : GPUtil.GPU :=
  {| GPUtil.load := ((1 # 3)%Q : float); GPUtil.name := "NVIDIA GeForce RTX 3080" |}.

Definition example_env (script : list TickEnv) : RunEnv :=
  {| start_time := example_time; ticks := script; stop_time := example_time |}.

Definition example_world : World := initial_world example_host ∅.

(** The monitor of the script under [__main__], on the example host. *)
Definition example_monitor : SystemMonitor :=
  match __init__ 5 LOG_FILENAME example_world with
  | (Returns self, _) => self
  | (Raises _, _) =>
      {| interval := 5; log_file := LOG_FILENAME;
         logger := logging.getLogger "SystemMonitor";
         os_info := {| OS := ""; Version := ""; Arch := ""; Cores := None; Total_RAM := "" |} |}
  end.

Definition example_started : World := world_after (__init__ 5 LOG_FILENAME) example_world.

(** The snapshot of an example tick with no GPU, taken right after startup. *)
Definition example_snapshot : Metrics :=
  match result_of (fetch_metrics example_monitor (example_tick (Returns []) (Returns tt)))
          example_started with
  | Returns m => m
  | Raises _ =>
      {| cpu_usage := float_of_int 0; ram_usage := float_of_int 0; ram_used := float_of_int 0;
         ram_free := float_of_int 0; gpu_usage := float_of_int 0; gpu_name := "" |}
  end.

End Example.

(** The handler and the logger [_setup_logger] builds for a path (lemma
    [setup_logger_returns]). *)
Definition monitor_handler (path : string) : logging.RotatingFileHandler := {|
  logging.baseFilename := path;
  logging.maxBytes := 5 * 1024 * 1024;
  logging.backupCount := 3;
  logging.handler_level := logging.NOTSET;
  logging.formatter := {| logging.fmt := LOG_FORMAT; logging.datefmt := "%Y-%m-%d %H:%M:%S" |}
|}.

Definition monitor_logger (path : string) : logging.Logger := {|
  logging.name := "SystemMonitor";
  logging.logger_level := levelno INFO;
  logging.handlers := [monitor_handler path]
|}.

(** A text that is empty or whose last character is a newline. *)
Definition closed_by_newline (s : string) : Prop :=
  s = EmptyString \/ exists a : string, s = a +:+ newline.

(** The events one iteration of the loop can add to the trace. *)
Definition is_tick_event (ev : event) : bool :=
  match ev with
  | EQuery psutil_cpu_percent | EQuery psutil_virtual_memory | EQuery GPUtil_getGPUs => true
  | ELog DEBUG _ => true
  | ELog INFO m => startswith "CPU: " m
  | EStdout _ | EFlush | ESleep _ => true
  | _ => false
  end.

(** ** Vocabulary of the further properties *)

(** The call returned. *)
Definition returned {A : Type} (o : outcome A) : bool :=
  match o with
  | Returns _ => true
  | Raises _ => false
  end.

(** The text a call brings into a record when it raises. *)
Definition raised_text {A : Type} (o : outcome A) : string :=
  match o with
  | Returns _ => ""
  | Raises e => str_exn e
  end.

Definition is_sleep (secs : Z) (ev : event) : bool :=
  match ev with
  | ESleep s => s =? secs
  | _ => false
  end.

Definition is_info_log (ev : event) : bool :=
  match ev with
  | ELog INFO _ => true
  | _ => false
  end.

(** The events taking a snapshot can add to the trace. *)
Definition is_fetch_event (ev : event) : bool :=
  match ev with
  | EQuery _ | ELog DEBUG _ => true
  | _ => false
  end.

(** The trace without the calls of [logger.debug]. *)
Definition without_debug (tr : list event) : list event :=
  List.filter (fun ev => match ev with ELog DEBUG _ => false | _ => true end) tr.




(** A text without a newline. *)
Definition one_line (s : string) : bool := negb (contains_char "010" s).

(** A line of the log: a record line, or the second line of the startup
    header. *)
Definition is_log_line (l : string) : bool :=
  is_record_line l || startswith "System Info: " l.

(** A log file whose lines are complete and of these two forms. *)
Definition well_formed_log (s : string) : Prop :=
  closed_by_newline s /\ forallb is_log_line (file_lines s) = true.

Section Answers.
Context `{F : Float}.

(** Every call of the iteration answers, the GPU query at least with an
    instance of [Exception]. *)
Definition completes (t : TickEnv) : bool :=
  returned (cpu_percent t) && returned (virtual_memory t) &&
  match getGPUs t with Raises KeyboardInterrupt => false | _ => true end &&
  returned (stdout_write t) && returned (stdout_flush t) && returned (sleep t).

(** The texts the environment's answers can bring into a record, the name of
    the first GPU and the messages of the exceptions, hold no newline. *)
Definition one_line_answers (t : TickEnv) : bool :=
  one_line (raised_text (cpu_percent t)) && one_line (raised_text (virtual_memory t)) &&
  match getGPUs t with Returns (gpu :: _) => one_line (GPUtil.name gpu) | _ => true end &&
  one_line (raised_text (stdout_write t)) && one_line (raised_text (stdout_flush t)) &&
  one_line (raised_text (sleep t)).

(** [t] with another answer of the GPU query. *)
Definition with_getGPUs (answer : outcome (list GPUtil.GPU)) (t : TickEnv) : TickEnv :=
  {| now := now t;
     cpu_percent := cpu_percent t;
     virtual_memory := virtual_memory t;
     getGPUs := answer;
     stdout_write := stdout_write t;
     stdout_flush := stdout_flush t;
     sleep := sleep t |}.

(** The record [log_system_info] logs. *)
Definition header_record (self : SystemMonitor) (env : RunEnv) : logging.LogRecord :=
  {| logging.created := start_time env; logging.level := INFO;
     logging.msg := header (os_info self) |}.

(** The record an iteration logs for the snapshot [m]. *)
Definition tick_record (t : TickEnv) (m : Metrics) : logging.LogRecord :=
  {| logging.created := now t; logging.level := INFO; logging.msg := log_msg m |}.

(** The record [run] logs when the exception [e] has left the loop. *)
Definition final_record (env : RunEnv) (e : exn) : logging.LogRecord :=
  match e with
  | KeyboardInterrupt =>
      {| logging.created := stop_time env; logging.level := INFO; logging.msg := STOPPED |}
  | Exception msg =>
      {| logging.created := stop_time env; logging.level := CRITICAL;
         logging.msg := "Unexpected error: " +:+ msg |}
  end.

(** [r] is the record of a snapshot taken in an iteration of [script]. *)
Definition is_tick_record (self : SystemMonitor) (script : list TickEnv)
    (r : logging.LogRecord) : Prop :=
  exists (t : TickEnv) (m : Metrics) (w : World),
    t ∈ script /\ result_of (fetch_metrics self t) w = Returns m /\ r = tick_record t m.

(** The records of a run: the header, those of the iterations, and the last
    one if an exception has left the loop. *)
Definition run_records (self : SystemMonitor) (env : RunEnv) (ticked : list logging.LogRecord)
    (raised : option exn) : list logging.LogRecord :=
  header_record self env :: ticked ++
  match raised with
  | Some e => [final_record env e]
  | None => []
  end.

End Answers.

(** * Properties *)

#[local] Arguments String.append !_ _ / : simpl nomatch.

(** ** Text *)

Lemma append_empty_r (s : string) : s +:+ "" = s.
Proof. induction s as [|c s IH]; simpl; [reflexivity | now rewrite IH]. Qed.
Lemma append_assoc (a b c : string) : (a +:+ b) +:+ c = a +:+ (b +:+ c).
Proof. induction a as [|x a IH]; simpl; [reflexivity | now rewrite IH]. Qed.

(** ** The formatter and the handler of [_setup_logger] *)

Lemma format_configured (path : string) (r : logging.LogRecord) :
  logging.format (logging.formatter (monitor_handler path)) r =
  strftime "%Y-%m-%d %H:%M:%S" (logging.created r) +:+
  " | " +:+ levelname (logging.level r) +:+ " | " +:+ logging.msg r.
Proof.
  unfold logging.format, percent_format, monitor_handler, LOG_FORMAT. cbn.
  now rewrite append_empty_r.
Qed.

Lemma record_line_configured (path : string) (r : logging.LogRecord) :
  logging.record_line (monitor_handler path) r =
  strftime "%Y-%m-%d %H:%M:%S" (logging.created r) +:+
  " | " +:+ levelname (logging.level r) +:+ " | " +:+ logging.msg r +:+ newline.
Proof.
  unfold logging.record_line. rewrite format_configured.
  now rewrite !append_assoc.
Qed.


(** ** The log files under rename, open and append *)

Lemma lookup_os_rename (src dst p : string * nat) (files : gmap (string * nat) string) :
  src ≠ dst →
  logging.os_rename src dst files !! p =
    if decide (p = dst) then
      match files !! src with Some c => Some c | None => files !! dst end
    else if decide (p = src) then None
    else files !! p.
Proof.
  intros Hne. unfold logging.os_rename.
  destruct (files !! src) as [c|] eqn:Hsrc; repeat case_decide; simplify_map_eq; done.
Qed.

Lemma lookup_open_append (p q : string * nat) (files : gmap (string * nat) string) :
  logging.open_append p files !! q =
    if decide (q = p) then Some (default ""%string (files !! p)) else files !! q.
Proof.
  unfold logging.open_append.
  destruct (files !! p) as [c|] eqn:Hp; case_decide; simplify_map_eq; done.
Qed.

Lemma lookup_append_text (p q : string * nat) (text : string) (files : gmap (string * nat) string) :
  logging.append_text p text files !! q =
    if decide (q = p) then Some (default ""%string (files !! p) +:+ text) else files !! q.
Proof. unfold logging.append_text. case_decide; simplify_map_eq; done. Qed.

Lemma fs_doRollover (h : logging.RotatingFileHandler) (w : World) :
  logging.backupCount h = 3%nat →
  fs (logging.doRollover h w) =
  let b := logging.baseFilename h in
  logging.open_append (b, 0%nat)
    (logging.os_rename (b, 0%nat) (b, 1%nat)
      (delete (b, 1%nat)
        (logging.os_rename (b, 1%nat) (b, 2%nat)
          (logging.os_rename (b, 2%nat) (b, 3%nat) (fs w))))).
Proof. intros Hc. unfold logging.doRollover. rewrite Hc. reflexivity. Qed.

(** Lookups in a file system built by renames, opens and appends. *)
Ltac map_cases :=
  repeat (rewrite ?lookup_open_append, ?lookup_append_text, ?lookup_delete;
          rewrite ?lookup_os_rename by congruence);
  repeat (case_decide; simplify_eq; try lia; try done).

Lemma rollover3_lookup (h : logging.RotatingFileHandler) (w : World) :
  logging.backupCount h = 3%nat →
  ∀ (b : string) (w' : World), b = logging.baseFilename h → w' = logging.doRollover h w →
  fs w' !! (b, 0%nat) = Some ""%string ∧
  fs w' !! (b, 1%nat) = fs w !! (b, 0%nat) ∧
  fs w' !! (b, 2%nat) = fs w !! (b, 1%nat) ∧
  fs w' !! (b, 3%nat) = (match fs w !! (b, 2%nat) with Some c => Some c | None => fs w !! (b, 3%nat) end) ∧
  (∀ p, p ∉ [(b,0%nat); (b,1%nat); (b,2%nat); (b,3%nat)] → fs w' !! p = fs w !! p).
Proof.
  intros Hc b w' -> ->. rewrite (fs_doRollover h w Hc). cbv zeta.
  repeat split.
  - map_cases.
  - map_cases. all: repeat case_match; simplify_eq; done.
  - map_cases. all: repeat case_match; simplify_eq; done.
  - map_cases.
  - intros p Hp. rewrite !not_elem_of_cons in Hp. destruct Hp as (H0 & H1 & H2 & H3 & _).
    map_cases.
Qed.

Lemma doRollover_frame (h : logging.RotatingFileHandler) (w : World) :
  host (logging.doRollover h w) = host w ∧
  trace (logging.doRollover h w) = trace w ∧
  logging.baseFilename h ∈ open_streams (logging.doRollover h w).
Proof.
  unfold logging.doRollover, logging.open_stream.
  destruct (0 <? logging.backupCount h)%nat; cbn; repeat split; set_solver.
Qed.

Lemma emit_frame (h : logging.RotatingFileHandler) (r : logging.LogRecord) (w : World) :
  host (logging.emit h r w) = host w ∧
  trace (logging.emit h r w) = trace w ∧
  logging.baseFilename h ∈ open_streams (logging.emit h r w).
Proof.
  unfold logging.emit.
  destruct (logging.shouldRollover h r w).
  - destruct (doRollover_frame h w) as (Hh & Ht & _).
    cbn. split; [done|]. split; [done|]. apply elem_of_union_l, elem_of_singleton. done.
  - cbn. split; [done|]. split; [done|]. apply elem_of_union_l, elem_of_singleton. done.
Qed.

Lemma fs_emit (h : logging.RotatingFileHandler) (r : logging.LogRecord) (w : World) :
  fs (logging.emit h r w) =
  let w1 := if logging.shouldRollover h r w then logging.doRollover h w else w in
  logging.append_text (logging.baseFilename h, 0%nat) (logging.record_line h r)
    (logging.open_append (logging.baseFilename h, 0%nat) (fs w1)).
Proof. reflexivity. Qed.

Lemma emit_active (h : logging.RotatingFileHandler) (r : logging.LogRecord) (w : World) :
  logging.backupCount h = 3%nat →
  fs (logging.emit h r w) !! (logging.baseFilename h, 0%nat) =
  Some ((if logging.shouldRollover h r w then ""%string
         else content w (logging.baseFilename h, 0%nat)) +:+ logging.record_line h r).
Proof.
  intros Hc. rewrite fs_emit. cbv zeta. unfold content.
  destruct (logging.shouldRollover h r w).
  - destruct (rollover3_lookup h w Hc _ _ eq_refl eq_refl) as (H0 & _).
    map_cases. rewrite H0. done.
  - map_cases.
Qed.

Lemma emit_rotates (h : logging.RotatingFileHandler) (r : logging.LogRecord) (w : World) :
  logging.backupCount h = 3%nat →
  logging.shouldRollover h r w = true →
  ∀ (b : string) (w' : World), b = logging.baseFilename h → w' = logging.emit h r w →
  fs w' !! (b, 0%nat) = Some (logging.record_line h r) ∧
  fs w' !! (b, 1%nat) = fs w !! (b, 0%nat) ∧
  fs w' !! (b, 2%nat) = fs w !! (b, 1%nat) ∧
  fs w' !! (b, 3%nat) = (match fs w !! (b, 2%nat) with Some c => Some c | None => fs w !! (b, 3%nat) end).
Proof.
  intros Hc Hr b w' -> ->. split.
  { rewrite emit_active by done. rewrite Hr. done. }
  rewrite fs_emit, Hr. cbv zeta.
  destruct (rollover3_lookup h w Hc _ _ eq_refl eq_refl) as (_ & H1 & H2 & H3 & _).
  repeat split; map_cases.
Qed.

Lemma emit_keeps (h : logging.RotatingFileHandler) (r : logging.LogRecord) (w : World) :
  logging.shouldRollover h r w = false →
  ∀ p, p ≠ (logging.baseFilename h, 0%nat) → fs (logging.emit h r w) !! p = fs w !! p.
Proof.
  intros Hr p Hp. rewrite fs_emit, Hr. cbv zeta. map_cases.
Qed.




#[local] Arguments logging.emit : simpl never.
#[local] Arguments logging.doRollover : simpl never.

Lemma callHandlers_frame (lg : logging.Logger) (r : logging.LogRecord) (w : World) :
  host (logging.callHandlers lg r w) = host w ∧
  trace (logging.callHandlers lg r w) = trace w.
Proof.
  unfold logging.callHandlers. generalize (logging.handlers lg). intros hs.
  revert w. induction hs as [|h hs IH]; intros w; [done|].
  cbn. destruct (IH (if logging.handler_level h <=? levelno (logging.level r)
                     then logging.emit h r w else w)) as [-> ->].
  case_match; [|done]. destruct (emit_frame h r w) as (-> & -> & _). done.
Qed.

Lemma log_frame (lg : logging.Logger) (now : struct_time) (l : Level) (m : string) (w : World) :
  result_of (logging.log lg now l m) w = Returns tt ∧
  host (world_after (logging.log lg now l m) w) = host w ∧
  trace (world_after (logging.log lg now l m) w) = trace w ++ [ELog l m].
Proof.
  unfold result_of, world_after, logging.log, effect. cbn.
  case_match; [|done].
  destruct (callHandlers_frame lg {| logging.created := now; logging.level := l; logging.msg := m |}
              (record_event (ELog l m) w)) as [-> ->]. done.
Qed.

Lemma info_monitor (path : string) (now : struct_time) (m : string) (w : World) :
  logging.info (monitor_logger path) now m w =
  (Returns tt, logging.emit (monitor_handler path)
                 {| logging.created := now; logging.level := INFO; logging.msg := m |}
                 (record_event (ELog INFO m) w)).
Proof. reflexivity. Qed.

Lemma critical_monitor (path : string) (now : struct_time) (m : string) (w : World) :
  logging.critical (monitor_logger path) now m w =
  (Returns tt, logging.emit (monitor_handler path)
                 {| logging.created := now; logging.level := CRITICAL; logging.msg := m |}
                 (record_event (ELog CRITICAL m) w)).
Proof. reflexivity. Qed.

Lemma debug_monitor (path : string) (now : struct_time) (m : string) (w : World) :
  logging.debug (monitor_logger path) now m w = (Returns tt, record_event (ELog DEBUG m) w).
Proof. reflexivity. Qed.

(** Unfolds the monad's operations and the primitive effects. *)
Ltac run_M :=
  repeat (unfold mbind, M_bind, mret, M_ret, effect, external, query_host, print, raise,
            try_except_Exception, result_of, world_after; cbn).

Section Monitor.
Context `{F : Float}.


Lemma init_returns (secs : Z) (path : string) (w0 w1 : World) (self : SystemMonitor) :
  __init__ secs path w0 = (Returns self, w1) →
  logger self = monitor_logger path ∧ log_file self = path ∧
  interval self = secs ∧
  result_of _get_os_info w0 = Returns (os_info self) ∧
  host w1 = host w0 ∧
  trace w1 = trace w0 ++ [EQuery platform_system; EQuery platform_version;
                          EQuery platform_machine; EQuery psutil_cpu_count;
                          EQuery psutil_virtual_memory] ∧
  path ∈ open_streams w1.
Proof.
  unfold __init__, _get_os_info, _setup_logger, logging.new_RotatingFileHandler. run_M.
  intros [= <- <-]. unfold record_event. cbn. rewrite <- !app_assoc.
  repeat split; try done. set_solver.
Qed.

End Monitor.

Section Gpu.
Context `{F : Float}.

(** C1 (as amended): what [_get_gpu_info] does, outcome by outcome of the
    GPU query. An empty device list gives the default pair [(0.0, "N/A")] and
    no logger call. A non-empty list gives the first device's
    [round(load * 100, 2)] and its name. An instance of [Exception] is
    caught, handed to [logger.debug] with the message
    ["Could not retrieve GPU info: <e>"], and gives the default pair: the
    caller sees a normal return. [KeyboardInterrupt] is not caught and
    reaches the caller. *)
Theorem gpu_info_by_outcome (self : SystemMonitor) (now : struct_time)
    (answer : outcome (list GPUtil.GPU)) (w : World) :
  let fallback := {| usage := float_of_int 0; name := "N/A" |} in
  let asked := record_event (EQuery GPUtil_getGPUs) w in
  match answer with
  | Returns [] => _get_gpu_info self now answer w = (Returns fallback, asked)
  | Returns (gpu :: _) =>
      _get_gpu_info self now answer w =
      (Returns {| usage := round (fmul (GPUtil.load gpu) (float_of_int 100)) 2;
                  name := GPUtil.name gpu |}, asked)
  | Raises (Exception msg) =>
      result_of (_get_gpu_info self now answer) w = Returns fallback ∧
      world_after (_get_gpu_info self now answer) w =
        world_after (logging.debug (logger self) now ("Could not retrieve GPU info: " +:+ msg)) asked ∧
      trace (world_after (_get_gpu_info self now answer) w) =
        trace w ++ [EQuery GPUtil_getGPUs; ELog DEBUG ("Could not retrieve GPU info: " +:+ msg)]
  | Raises KeyboardInterrupt =>
      _get_gpu_info self now answer w = (Raises KeyboardInterrupt, asked)
  end.
Proof.
  intros fallback asked.
  destruct answer as [[|gpu gpus]|[|msg]]; try reflexivity.
  split; [reflexivity|]. split; [reflexivity|].
  change (world_after (_get_gpu_info self now (Raises (Exception msg))) w)
    with (world_after (logging.log (logger self) now DEBUG ("Could not retrieve GPU info: " +:+ msg)) asked).
  destruct (log_frame (logger self) now DEBUG ("Could not retrieve GPU info: " +:+ msg) asked)
    as (_ & _ & ->).
  subst asked. cbn. by rewrite <- app_assoc.
Qed.

(** C10: for a monitor built by [__init__], whose logger is at level [INFO],
    a failing GPU query leaves every log file and every stream as it was: the
    call of [logger.debug] is made, and recorded in the trace, but writes
    nothing; the result is the default pair. *)
Theorem gpu_failure_leaves_log (secs : Z) (path : string) (w0 w1 : World) (self : SystemMonitor)
    (now : struct_time) (msg : string) (w : World) :
  __init__ secs path w0 = (Returns self, w1) →
  result_of (_get_gpu_info self now (Raises (Exception msg))) w =
    Returns {| usage := float_of_int 0; name := "N/A" |} ∧
  fs (world_after (_get_gpu_info self now (Raises (Exception msg))) w) = fs w ∧
  open_streams (world_after (_get_gpu_info self now (Raises (Exception msg))) w) = open_streams w ∧
  trace (world_after (_get_gpu_info self now (Raises (Exception msg))) w) =
    trace w ++ [EQuery GPUtil_getGPUs; ELog DEBUG ("Could not retrieve GPU info: " +:+ msg)].
Proof.
  intros Hinit. apply init_returns in Hinit as (Hlg & _).
  unfold _get_gpu_info. rewrite Hlg. run_M. by rewrite <- app_assoc.
Qed.

End Gpu.

(** ** The rotating sink *)

#[local] Arguments Ascii.eqb !_ !_ : simpl nomatch.

Lemma append_empty_l (s : string) : "" +:+ s = s.
Proof. reflexivity. Qed.



(** ** Lines of the log file *)

Lemma file_lines_line (a s : string) :
  contains_char "010" a = false →
  file_lines (a +:+ String "010" s) = a :: file_lines s.
Proof.
  induction a as [|c a IH]; intros Hno; [reflexivity|].
  cbn in Hno. apply orb_false_elim in Hno as [Hc Ha].
  cbn. rewrite Ascii.eqb_sym, Hc. by rewrite (IH Ha).
Qed.

Lemma contains_char_append (c : ascii) (a b : string) :
  contains_char c (a +:+ b) = contains_char c a || contains_char c b.
Proof.
  induction a as [|x a IH]; [reflexivity|]. cbn. rewrite IH. by rewrite orb_assoc.
Qed.

Lemma digit_cases (n : nat) :
  ∃ k : nat, (k < 10)%nat ∧ digit n = ascii_of_nat (48 + k).
Proof. exists (n mod 10)%nat. split; [apply Nat.mod_upper_bound; lia | reflexivity]. Qed.

Lemma digit_is_digit (n : nat) : is_digit (digit n) = true.
Proof.
  destruct (digit_cases n) as (k & Hk & ->).
  do 10 (destruct k as [|k]; [reflexivity|]). lia.
Qed.

Lemma digit_not_newline (n : nat) : Ascii.eqb "010" (digit n) = false.
Proof.
  destruct (digit_cases n) as (k & Hk & ->).
  do 10 (destruct k as [|k]; [reflexivity|]). lia.
Qed.

Lemma strftime_shape (t : struct_time) (rest : string) :
  match_shape "dddd-dd-dd dd:dd:dd" (strftime "%Y-%m-%d %H:%M:%S" t +:+ rest) = Some rest ∧
  contains_char "010" (strftime "%Y-%m-%d %H:%M:%S" t) = false.
Proof.
  unfold strftime. cbn. rewrite !digit_is_digit, !digit_not_newline. cbn. done.
Qed.



Lemma match_shape_append (p1 p2 s rest : string) :
  match_shape p1 s = Some rest → match_shape (p1 +:+ p2) s = match_shape p2 rest.
Proof.
  revert s. induction p1 as [|c p1 IH]; intros s H.
  - cbn in H. injection H as ->. done.
  - destruct s as [|d s]; [done|]. cbn in H |- *.
    destruct (if Ascii.eqb c "d" then is_digit d else Ascii.eqb c d); [by apply IH | done].
Qed.


(** ** The loop *)

Section Loop.
Context `{F : Float}.

Lemma gpu_info_frame (self : SystemMonitor) (path : string) (now : struct_time)
    (answer : outcome (list GPUtil.GPU)) (w : World) :
  logger self = monitor_logger path →
  ∃ evs, world_after (_get_gpu_info self now answer) w =
           {| host := host w; fs := fs w; open_streams := open_streams w;
              trace := trace w ++ evs |} ∧
         forallb is_tick_event evs = true.
Proof.
  intros Hlg. unfold _get_gpu_info. rewrite Hlg.
  destruct answer as [[|gpu gpus]|[|msg]]; run_M; unfold record_event; cbn.
  - by exists [EQuery GPUtil_getGPUs].
  - by exists [EQuery GPUtil_getGPUs].
  - by exists [EQuery GPUtil_getGPUs].
  - exists [EQuery GPUtil_getGPUs; ELog DEBUG ("Could not retrieve GPU info: " +:+ msg)].
    by rewrite <- app_assoc.
Qed.

Lemma fetch_metrics_frame (self : SystemMonitor) (path : string) (t : TickEnv) (w : World) :
  logger self = monitor_logger path →
  ∃ evs, world_after (fetch_metrics self t) w =
           {| host := host w; fs := fs w; open_streams := open_streams w;
              trace := trace w ++ evs |} ∧
         forallb is_tick_event evs = true.
Proof.
  intros Hlg. unfold fetch_metrics.
  destruct (cpu_percent t) as [c|e] eqn:Hcpu.
  2:{ run_M. unfold record_event. cbn. by exists [EQuery psutil_cpu_percent]. }
  destruct (virtual_memory t) as [ram|e] eqn:Hvm.
  2:{ run_M. unfold record_event. cbn.
      exists [EQuery psutil_cpu_percent; EQuery psutil_virtual_memory].
      by rewrite <- app_assoc. }
  destruct (gpu_info_frame self path (now t) (getGPUs t)
              (record_event (EQuery psutil_virtual_memory) (record_event (EQuery psutil_cpu_percent) w)) Hlg)
    as (evs & Hw & Hevs).
  exists ([EQuery psutil_cpu_percent; EQuery psutil_virtual_memory] ++ evs).
  split; [|done].
  unfold world_after in *. unfold mbind, M_bind, external.
  destruct (_get_gpu_info self (now t) (getGPUs t) _) as [[g|e] w'] eqn:Hg; cbn in Hw |- *;
    rewrite Hw; cbn; by rewrite <- !app_assoc.
Qed.

Lemma emit_active_monitor (path : string) (r : logging.LogRecord) (w : World) :
  fs (logging.emit (monitor_handler path) r w) !! (path, 0%nat) =
  Some ((if logging.shouldRollover (monitor_handler path) r w then ""%string
         else content w (path, 0%nat)) +:+ logging.record_line (monitor_handler path) r).
Proof. exact (emit_active (monitor_handler path) r w eq_refl). Qed.

Lemma emit_closed_by_newline (path : string) (r : logging.LogRecord) (w : World) :
  closed_by_newline (content (logging.emit (monitor_handler path) r w) (path, 0%nat)).
Proof.
  right. unfold content.
  rewrite emit_active_monitor.
  unfold logging.record_line. eexists. cbn [default]. by rewrite <- append_assoc.
Qed.

Lemma tick_log_is_tick_event (m : Metrics) : is_tick_event (ELog INFO (log_msg m)) = true.
Proof. reflexivity. Qed.

(** The rest of an iteration once the snapshot is there. *)
Lemma loop_body_after_fetch (self : SystemMonitor) (path : string) (t : TickEnv)
    (w wm : World) (m : Metrics) :
  logger self = monitor_logger path →
  fetch_metrics self t w = (Returns m, wm) →
  ∃ later,
    world_after (loop_body self t) w =
      (let wl := logging.emit (monitor_handler path)
                   {| logging.created := now t; logging.level := INFO; logging.msg := log_msg m |}
                   (record_event (ELog INFO (log_msg m)) wm) in
       {| host := host wl; fs := fs wl; open_streams := open_streams wl;
          trace := trace wl ++ later |}) ∧
    forallb is_tick_event later = true ∧
    count_events is_log later = 0%nat.
Proof.
  intros Hlg Hfetch. unfold world_after, loop_body.
  unfold mbind at 1, M_bind at 1. rewrite Hfetch. rewrite Hlg.
  unfold mbind at 1, M_bind at 1. rewrite info_monitor.
  set (wl := logging.emit _ _ _).
  destruct (stdout_write t) as [[]|e] eqn:Hwrite.
  2:{ exists [EStdout (live_line m)]. run_M. done. }
  destruct (stdout_flush t) as [[]|e] eqn:Hflush.
  2:{ exists [EStdout (live_line m); EFlush]. run_M.
      unfold record_event. cbn. by rewrite <- app_assoc. }
  exists [EStdout (live_line m); EFlush; ESleep (interval self)].
  run_M.
  unfold record_event. cbn. rewrite <- !app_assoc. cbn.
  by destruct (sleep t).
Qed.

Lemma loop_body_no_fetch (self : SystemMonitor) (t : TickEnv) (w wm : World) (e : exn) :
  fetch_metrics self t w = (Raises e, wm) →
  loop_body self t w = (Raises e, wm).
Proof. intros Hfetch. unfold loop_body, mbind, M_bind. by rewrite Hfetch. Qed.

(** What an iteration keeps. *)
Lemma loop_body_preserves (self : SystemMonitor) (path : string) (t : TickEnv) (w : World) :
  logger self = monitor_logger path →
  host (world_after (loop_body self t) w) = host w ∧
  (path ∈ open_streams w → path ∈ open_streams (world_after (loop_body self t) w)) ∧
  (closed_by_newline (content w (path, 0%nat)) →
   closed_by_newline (content (world_after (loop_body self t) w) (path, 0%nat))) ∧
  ∃ evs, trace (world_after (loop_body self t) w) = trace w ++ evs ∧
         forallb is_tick_event evs = true.
Proof.
  intros Hlg.
  destruct (fetch_metrics_frame self path t w Hlg) as (evs & Hwm & Hevs).
  unfold world_after in Hwm.
  destruct (fetch_metrics self t w) as [[m|e] wm] eqn:Hfetch; cbn [snd] in Hwm.
  - destruct (loop_body_after_fetch self path t w wm m Hlg Hfetch) as (later & -> & Hlater & _).
    cbv zeta. cbn [host fs open_streams trace]. unfold content. cbn [fs].
    set (r := {| logging.created := now t; logging.level := INFO; logging.msg := log_msg m |}).
    destruct (emit_frame (monitor_handler path) r (record_event (ELog INFO (log_msg m)) wm))
      as (Hh & Ht & Ho).
    rewrite Hh, Ht. cbn. subst wm. cbn.
    split; [done|]. split; [done|]. split.
    { intros _. apply (emit_closed_by_newline path r). }
    exists (evs ++ ELog INFO (log_msg m) :: later).
    rewrite <- !app_assoc. split; [done|].
    rewrite forallb_app. cbn [forallb]. by rewrite Hevs, tick_log_is_tick_event, Hlater.
  - unfold world_after. rewrite (loop_body_no_fetch self t w wm e Hfetch). cbn [snd].
    subst wm. cbn. unfold content. cbn. repeat split; try done. by exists evs.
Qed.

Lemma while_True_preserves (self : SystemMonitor) (path : string) (script : list TickEnv) (w : World) :
  logger self = monitor_logger path →
  host (while_True (loop_body self) script w).2 = host w ∧
  (path ∈ open_streams w → path ∈ open_streams (while_True (loop_body self) script w).2) ∧
  (closed_by_newline (content w (path, 0%nat)) →
   closed_by_newline (content (while_True (loop_body self) script w).2 (path, 0%nat))) ∧
  ∃ evs, trace (while_True (loop_body self) script w).2 = trace w ++ evs ∧
         forallb is_tick_event evs = true.
Proof.
  intros Hlg. revert w. induction script as [|t script IH]; intros w.
  - cbn. repeat split; try done. exists []. by rewrite app_nil_r.
  - destruct (loop_body_preserves self path t w Hlg) as (Hh & Ho & Hc & evs & Ht & Hevs).
    unfold world_after in *. cbn [while_True].
    destruct (loop_body self t w) as [[[]|e] w'] eqn:Hbody; cbn [snd] in *.
    + destruct (IH w') as (Hh' & Ho' & Hc' & evs' & Ht' & Hevs').
      rewrite Hh', Hh. split; [done|]. split; [auto|]. split; [auto|].
      exists (evs ++ evs'). rewrite Ht', Ht, <- app_assoc. split; [done|].
      by rewrite forallb_app, Hevs, Hevs'.
    + split; [done|]. split; [auto|]. split; [auto|]. by exists evs.
Qed.

(** The loop is left at the first exception: what the script holds after it
    is never asked for. *)
Lemma while_True_stops (body : TickEnv → M unit) (script more : list TickEnv) (w wl : World) (e : exn) :
  while_True body script w = (Some e, wl) →
  while_True body (script ++ more) w = (Some e, wl).
Proof.
  revert w. induction script as [|t script IH]; intros w; [done|].
  cbn. destruct (body t w) as [[[]|e'] w']; [apply IH | done].
Qed.

(** The exception an iteration ends with, read off the environment's
    answers: the first one raised, except that an instance of [Exception]
    raised by the GPU query never leaves [_get_gpu_info]. *)
Lemma loop_body_result (self : SystemMonitor) (t : TickEnv) (w : World) :
  result_of (loop_body self t) w =
  match cpu_percent t with
  | Raises e => Raises e
  | Returns _ =>
    match virtual_memory t with
    | Raises e => Raises e
    | Returns _ =>
      match getGPUs t with
      | Raises KeyboardInterrupt => Raises KeyboardInterrupt
      | _ =>
        match stdout_write t with
        | Raises e => Raises e
        | Returns _ =>
          match stdout_flush t with
          | Raises e => Raises e
          | Returns _ => match sleep t with Raises e => Raises e | Returns _ => Returns tt end
          end
        end
      end
    end
  end.
Proof.
  unfold result_of, loop_body, fetch_metrics, _get_gpu_info.
  destruct (cpu_percent t) as [c|e]; [|done].
  destruct (virtual_memory t) as [ram|e]; [|done].
  destruct (getGPUs t) as [[|gpu gpus]|[|msg]]; run_M;
    destruct (stdout_write t) as [[]|e]; try done;
    destruct (stdout_flush t) as [[]|e]; try done;
    destruct (sleep t) as [[]|e]; done.
Qed.

Lemma file_lines_one (text : string) :
  contains_char "010" text = false → file_lines (text +:+ newline) = [text].
Proof. intros H. unfold newline. by rewrite file_lines_line. Qed.

Lemma file_lines_snoc (a text : string) :
  contains_char "010" text = false →
  ∃ l ls, file_lines (a +:+ String "010" (text +:+ newline)) = l :: ls ++ [text].
Proof.
  intros Htext. induction a as [|c a (l & ls & IH)].
  - exists ""%string, []. cbn. by rewrite file_lines_one.
  - cbn. rewrite IH. destruct (Ascii.eqb c "010").
    + by exists ""%string, (l :: ls).
    + by exists (String c l), ls.
Qed.

Lemma file_lines_last (old text : string) :
  closed_by_newline old → contains_char "010" text = false →
  last (file_lines (old +:+ text +:+ newline)) = Some text.
Proof.
  intros [-> | [a ->]] Htext.
  - cbn. by rewrite file_lines_one.
  - destruct (file_lines_snoc a text Htext) as (l & ls & Hl).
    rewrite append_assoc. unfold newline at 1. cbn. rewrite Hl.
    change (l :: ls ++ [text]) with ((l :: ls) ++ [text]). apply last_snoc.
Qed.

Lemma record_text_no_newline (t : struct_time) (l : Level) (m : string) :
  contains_char "010" m = false →
  contains_char "010" (strftime "%Y-%m-%d %H:%M:%S" t +:+ " | " +:+ levelname l +:+ " | " +:+ m) = false.
Proof.
  intros Hm. rewrite !contains_char_append, Hm, (proj2 (strftime_shape t ""%string)).
  by destruct l.
Qed.

(** The last line of the active file after a record with a one-line message
    is written to a file closed by a newline. *)
Lemma emit_last_line (path : string) (r : logging.LogRecord) (w : World) :
  closed_by_newline (content w (path, 0%nat)) →
  contains_char "010" (logging.msg r) = false →
  last (file_lines (content (logging.emit (monitor_handler path) r w) (path, 0%nat))) =
  Some (strftime "%Y-%m-%d %H:%M:%S" (logging.created r) +:+ " | " +:+
        levelname (logging.level r) +:+ " | " +:+ logging.msg r).
Proof.
  intros Hclosed Hmsg. unfold content at 1. rewrite emit_active_monitor. cbn [default].
  rewrite record_line_configured.
  replace (strftime "%Y-%m-%d %H:%M:%S" (logging.created r) +:+ " | " +:+
           levelname (logging.level r) +:+ " | " +:+ logging.msg r +:+ newline)
    with ((strftime "%Y-%m-%d %H:%M:%S" (logging.created r) +:+ " | " +:+
           levelname (logging.level r) +:+ " | " +:+ logging.msg r) +:+ newline)
    by (by rewrite !append_assoc).
  apply file_lines_last; [|by apply record_text_no_newline].
  destruct (logging.shouldRollover _ _ _); [left; reflexivity | exact Hclosed].
Qed.

Lemma startup_effect (self : SystemMonitor) (path : string) (env : RunEnv) (w : World) :
  logger self = monitor_logger path →
  startup self env w =
  (Returns tt,
   logging.emit (monitor_handler path)
     {| logging.created := start_time env; logging.level := INFO;
        logging.msg := header (os_info self) |}
     (record_event (ELog INFO (header (os_info self)))
        (record_event (EStdout (("Press CTRL+C to exit." +:+ newline) +:+ newline))
           (record_event
              (EStdout (("System monitoring service started. (Log file: " +:+ log_file self +:+ ")")
                        +:+ newline)) w)))).
Proof. intros Hlg. unfold startup, log_system_info. rewrite Hlg. reflexivity. Qed.

Lemma run_unfold (self : SystemMonitor) (env : RunEnv) (w : World) :
  run self env w =
  match while_True (loop_body self) (ticks env) (world_after (startup self env) w) with
  | (None, wl) => (Returns Running, wl)
  | (Some KeyboardInterrupt, wl) =>
      (_ ← print (newline +:+ newline +:+ "Stopping service...");
       _ ← logging.info (logger self) (stop_time env) STOPPED;
       mret Returned) wl
  | (Some (Exception msg), wl) =>
      (_ ← logging.critical (logger self) (stop_time env) ("Unexpected error: " +:+ msg);
       _ ← print (newline +:+ "An error occurred: " +:+ msg);
       mret Returned) wl
  end.
Proof.
  assert (Hs : result_of (startup self env) w = Returns tt).
  { unfold startup, log_system_info, logging.info. run_M. reflexivity. }
  unfold run, world_after, result_of in *. unfold mbind at 1, M_bind at 1.
  destruct (startup self env w) as [[[]|e] ws]; [|done]. cbn [snd].
  unfold try_loop. unfold mbind at 1, M_bind at 1.
  destruct (while_True _ _ _) as [[[|msg]|] wl]; reflexivity.
Qed.

(** The world in which the loop is entered. *)
Lemma startup_frame (self : SystemMonitor) (path : string) (env : RunEnv) (w : World) :
  logger self = monitor_logger path →
  host (world_after (startup self env) w) = host w ∧
  path ∈ open_streams (world_after (startup self env) w) ∧
  closed_by_newline (content (world_after (startup self env) w) (path, 0%nat)) ∧
  trace (world_after (startup self env) w) =
    trace w ++ [EStdout (("System monitoring service started. (Log file: " +:+ log_file self +:+ ")")
                         +:+ newline);
                EStdout (("Press CTRL+C to exit." +:+ newline) +:+ newline);
                ELog INFO (header (os_info self))].
Proof.
  intros Hlg. unfold world_after. rewrite (startup_effect self path env w Hlg). cbn [snd].
  set (r := {| logging.created := start_time env; logging.level := INFO;
               logging.msg := header (os_info self) |}).
  set (ws := record_event _ _).
  destruct (emit_frame (monitor_handler path) r ws) as (Hh & Ht & Ho).
  split; [by rewrite Hh|]. split; [exact Ho|]. split; [apply emit_closed_by_newline|].
  rewrite Ht. subst ws. cbn. by rewrite <- !app_assoc.
Qed.

(** C3 (as amended): if the loop is left by a [KeyboardInterrupt], whichever
    call of whichever iteration raised it, [run] returns normally; the last
    two things it does are to print the acknowledgment and to log
    ["--- MONITOR STOPPED ---"] at [INFO]; that record is the last line of
    the active log file; no later iteration of the script is started. [run]
    does not close the log stream: it is still open when [run] returns. *)
Theorem interrupt_stops_the_monitor (secs : Z) (path : string) (w0 w1 : World)
    (self : SystemMonitor) (env : RunEnv) (w wl : World) :
  __init__ secs path w0 = (Returns self, w1) →
  while_True (loop_body self) (ticks env) (world_after (startup self env) w)
    = (Some KeyboardInterrupt, wl) →
  result_of (run self env) w = Returns Returned ∧
  trace (world_after (run self env) w) =
    trace wl ++ [EStdout (newline +:+ newline +:+ "Stopping service..." +:+ newline);
                 ELog INFO "--- MONITOR STOPPED ---"] ∧
  last (file_lines (content (world_after (run self env) w) (path, 0%nat))) =
    Some (strftime "%Y-%m-%d %H:%M:%S" (stop_time env) +:+ " | INFO | --- MONITOR STOPPED ---") ∧
  path ∈ open_streams (world_after (run self env) w) ∧
  ∀ more : list TickEnv,
    run self {| start_time := start_time env; ticks := ticks env ++ more;
                stop_time := stop_time env |} w
    = run self env w.
Proof.
  intros Hinit Hloop. apply init_returns in Hinit as (Hlg & _).
  destruct (startup_frame self path env w Hlg) as (_ & Hopen & Hclosed & _).
  destruct (while_True_preserves self path (ticks env) (world_after (startup self env) w) Hlg)
    as (_ & Hopen' & Hclosed' & _).
  rewrite Hloop in Hopen', Hclosed'. cbn [snd] in Hopen', Hclosed'.
  assert (Hrun : run self env w =
    (Returns Returned,
     logging.emit (monitor_handler path)
       {| logging.created := stop_time env; logging.level := INFO; logging.msg := STOPPED |}
       (record_event (ELog INFO STOPPED)
          (record_event (EStdout (newline +:+ newline +:+ "Stopping service..." +:+ newline)) wl)))).
  { rewrite run_unfold, Hloop, Hlg. reflexivity. }
  assert (Hmore : ∀ more : list TickEnv,
    run self {| start_time := start_time env; ticks := ticks env ++ more;
                stop_time := stop_time env |} w = run self env w).
  { intros more. rewrite !run_unfold. cbn [ticks stop_time].
    change (startup self {| start_time := start_time env; ticks := ticks env ++ more;
                            stop_time := stop_time env |})
      with (startup self env).
    by rewrite (while_True_stops _ _ more _ _ _ Hloop), Hloop. }
  unfold result_of, world_after at 1 2 3. rewrite Hrun. cbn [fst snd].
  set (r := {| logging.created := stop_time env; logging.level := INFO; logging.msg := STOPPED |}).
  set (ws := record_event (ELog INFO STOPPED) _).
  destruct (emit_frame (monitor_handler path) r ws) as (_ & Ht & Ho).
  split; [done|]. split.
  { rewrite Ht. subst ws. cbn. by rewrite <- app_assoc. }
  split.
  { rewrite (emit_last_line path r ws); [reflexivity | by apply Hclosed' | reflexivity]. }
  split; [exact Ho|].
  intros more. rewrite Hmore. exact Hrun.
Qed.


(** C5: in an iteration whose snapshot is [m], the one logger call made
    after the snapshot is taken is [info] with exactly the message
    [CPU: <cpu_usage>% | RAM: <ram_usage>% (<ram_used>MB Used) | GPU: <gpu_usage>% (<gpu_name>)],
    and the active log file ends with that message in a record of level
    [INFO] stamped with the tick's time. *)
Theorem tick_record_message (secs : Z) (path : string) (w0 w1 : World) (self : SystemMonitor)
    (t : TickEnv) (w wm : World) (m : Metrics) :
  __init__ secs path w0 = (Returns self, w1) →
  fetch_metrics self t w = (Returns m, wm) →
  let message :=
    "CPU: " +:+ float_str (cpu_usage m) +:+ "% | RAM: " +:+ float_str (ram_usage m) +:+
    "% (" +:+ float_str (ram_used m) +:+ "MB Used) | GPU: " +:+ float_str (gpu_usage m) +:+
    "% (" +:+ gpu_name m +:+ ")" in
  (∃ later : list event,
     trace (world_after (loop_body self t) w) = trace wm ++ ELog INFO message :: later ∧
     count_events is_log later = 0%nat) ∧
  (∃ old : string,
     fs (world_after (loop_body self t) w) !! (path, 0%nat) =
     Some (old +:+ strftime "%Y-%m-%d %H:%M:%S" (now t) +:+ " | INFO | " +:+ message +:+ newline)).
Proof.
  intros Hinit Hfetch message. apply init_returns in Hinit as (Hlg & _).
  assert (Hmsg : log_msg m = message).
  { unfold log_msg. subst message. reflexivity. }
  destruct (loop_body_after_fetch self path t w wm m Hlg Hfetch) as (later & -> & _ & Hlater).
  cbv zeta. cbn [trace fs]. rewrite Hmsg.
  set (r := {| logging.created := now t; logging.level := INFO; logging.msg := message |}).
  destruct (emit_frame (monitor_handler path) r (record_event (ELog INFO message) wm))
    as (_ & Ht & _).
  split.
  - exists later. rewrite Ht. cbn. by rewrite <- app_assoc.
  - eexists. rewrite emit_active_monitor, record_line_configured.
    cbn [logging.created logging.level logging.msg r levelname]. f_equal.
Qed.

End Loop.

(** ** Exact rationals satisfy the float laws *)

Lemma Q_nearest_even_of_Z (q : Q) (z : Z) : (q == inject_Z z)%Q → Q_nearest_even q = z.
Proof.
  intros Hq. unfold Q_nearest_even.
  assert (Hf : Qfloor q = z) by (rewrite Hq; apply Qfloor_Z).
  rewrite Hf.
  assert (Hlt : (q - inject_Z z < 1 # 2)%Q) by (rewrite Hq; lra).
  destruct (Qcompare_spec (q - inject_Z z) (1 # 2)) as [H|H|H]; [exfalso; lra | done | exfalso; lra].
Qed.

Lemma Q_nearest_even_bounds (q : Q) :
  Qfloor q <= Q_nearest_even q <= Qfloor q + 1.
Proof.
  unfold Q_nearest_even.
  destruct (q - inject_Z (Qfloor q) ?= 1 # 2)%Q; [destruct (Z.even (Qfloor q))| |]; lia.
Qed.

Lemma Q_nearest_even_mono (x y : Q) : (x <= y)%Q → Q_nearest_even x <= Q_nearest_even y.
Proof.
  intros Hxy.
  pose proof (Qfloor_resp_le x y Hxy) as Hf.
  destruct (Z.eq_dec (Qfloor x) (Qfloor y)) as [Heq|Hne].
  - unfold Q_nearest_even. rewrite <- Heq.
    destruct (Qcompare_spec (x - inject_Z (Qfloor x)) (1 # 2)) as [Hx|Hx|Hx];
      destruct (Qcompare_spec (y - inject_Z (Qfloor x)) (1 # 2)) as [Hy|Hy|Hy];
      try destruct (Z.even (Qfloor x)); try lia; exfalso; lra.
  - pose proof (Q_nearest_even_bounds x). pose proof (Q_nearest_even_bounds y). lia.
Qed.

Lemma pow10_pos (n : Z) : 0 <= n → (0 < inject_Z (10 ^ n))%Q.
Proof.
  intros Hn. change 0%Q with (inject_Z 0). rewrite <- Zlt_Qlt. by apply Z.pow_pos_nonneg.
Qed.

Lemma Q_round_mono (x y : Q) (n : Z) : (x <= y)%Q → (Q_round x n <= Q_round y n)%Q.
Proof.
  intros Hxy. unfold Q_round. destruct (0 <=? n) eqn:Hn.
  - apply Z.leb_le in Hn. pose proof (pow10_pos n Hn) as Hp.
    apply Qmult_le_compat_r; [|apply Qinv_le_0_compat; lra].
    rewrite <- Zle_Qle. apply Q_nearest_even_mono.
    apply Qmult_le_compat_r; [done | lra].
  - apply Z.leb_gt in Hn. pose proof (pow10_pos (- n) ltac:(lia)) as Hp.
    apply Qmult_le_compat_r; [|lra].
    rewrite <- Zle_Qle. apply Q_nearest_even_mono.
    apply Qmult_le_compat_r; [done | apply Qinv_le_0_compat; lra].
Qed.

Lemma Q_round_of_Z (k n : Z) : 0 <= n → (Q_round (inject_Z k) n == inject_Z k)%Q.
Proof.
  intros Hn. unfold Q_round. rewrite (proj2 (Z.leb_le 0 n) Hn).
  pose proof (pow10_pos n Hn) as Hp.
  rewrite (Q_nearest_even_of_Z _ (k * 10 ^ n)) by (rewrite inject_Z_mult; reflexivity).
  rewrite inject_Z_mult. field. lra.
Qed.

Lemma Q_FloatLaws : FloatLaws Q_Float.
Proof.
  split; cbn.
  - intros x y z. apply Qle_trans.
  - intros a b Hab. by rewrite <- Zle_Qle.
  - intros x y c Hc Hxy. apply Qmult_le_compat_r; [done|].
    change 0%Q with (inject_Z 0). rewrite <- Zle_Qle. lia.
  - intros a b _ _ _. unfold feq. cbn. rewrite inject_Z_mult. split; apply Qle_refl.
  - intros x y n. apply Q_round_mono.
  - intros k n Hn. unfold feq. cbn. rewrite (Q_round_of_Z k n Hn). split; apply Qle_refl.
  - intros a b Ha Hb. change (inject_Z 0) with 0%Q.
    apply Qle_shift_div_l.
    + change 0%Q with (inject_Z 0). rewrite <- Zlt_Qlt. done.
    + rewrite Qmult_0_l. change 0%Q with (inject_Z 0). rewrite <- Zle_Qle. done.
Qed.

(** ** The snapshot *)

Section Snapshot.
Context `{F : Float}.

(** What [fetch_metrics] returns, read off the environment's answers. *)
Lemma fetch_metrics_result (self : SystemMonitor) (t : TickEnv) (w : World) :
  result_of (fetch_metrics self t) w =
  match cpu_percent t with
  | Raises e => Raises e
  | Returns cpu =>
    match virtual_memory t with
    | Raises e => Raises e
    | Returns ram =>
      let snapshot (usage : float) (name : string) :=
        Returns {| cpu_usage := cpu;
                   ram_usage := psutil.percent ram;
                   ram_used := round (truediv (psutil.used ram) (1024 ^ 2)) 2;
                   ram_free := round (truediv (psutil.available ram) (1024 ^ 2)) 2;
                   gpu_usage := usage;
                   gpu_name := name |} in
      match getGPUs t with
      | Returns (gpu :: _) =>
          snapshot (round (fmul (GPUtil.load gpu) (float_of_int 100)) 2) (GPUtil.name gpu)
      | Returns [] | Raises (Exception _) => snapshot (float_of_int 0) "N/A"%string
      | Raises KeyboardInterrupt => Raises KeyboardInterrupt
      end
    end
  end.
Proof.
  unfold result_of, fetch_metrics, _get_gpu_info.
  destruct (cpu_percent t) as [c|e]; [|done].
  destruct (virtual_memory t) as [ram|e]; [|done].
  destruct (getGPUs t) as [[|gpu gpus]|[|msg]]; reflexivity.
Qed.

Section Laws.
Context {L : FloatLaws F}.

Lemma zero_is_a_percentage : percentage (float_of_int 0).
Proof. split; apply fle_of_int; lia. Qed.

Lemma round_nonneg (x : float) : fle (float_of_int 0) x → fle (float_of_int 0) (round x 2).
Proof.
  intros Hx. eapply fle_trans; [|apply round_mono, Hx].
  apply (round_of_int 0 2). lia.
Qed.

Lemma load_as_percentage (x : float) :
  fle (float_of_int 0) x → fle x (float_of_int 1) →
  percentage (round (fmul x (float_of_int 100)) 2).
Proof.
  intros H0 H1. split.
  - apply round_nonneg. eapply fle_trans; [|apply fmul_mono, H0; lia].
    apply (fmul_of_int 0 100); cbn; lia.
  - eapply fle_trans; [apply round_mono|apply (round_of_int 100 2); lia].
    eapply fle_trans; [apply fmul_mono, H1; lia|].
    apply (fmul_of_int 1 100); cbn; lia.
Qed.

(** C7: when the providers report percentages in [0, 100], byte counts
    that are not negative and GPU loads in [0, 1], [fetch_metrics] returns a
    snapshot unless a CPU or memory query raises or the GPU query is
    interrupted, and the snapshot is well formed: CPU, RAM and GPU usage lie
    in [0, 100], [ram_used] and [ram_free] are not negative, and with no GPU
    to report the GPU fields are [0.0] and ["N/A"]. *)
Theorem snapshot_is_well_formed (self : SystemMonitor) (t : TickEnv) (w : World) :
  providers_in_range t →
  match result_of (fetch_metrics self t) w with
  | Returns m =>
      well_formed m ∧
      (gpu_unavailable t → gpu_usage m = float_of_int 0 ∧ gpu_name m = "N/A"%string)
  | Raises e =>
      cpu_percent t = Raises e ∨ virtual_memory t = Raises e ∨
      (e = KeyboardInterrupt ∧ getGPUs t = Raises KeyboardInterrupt)
  end.
Proof.
  intros (Hcpu & Hram & Hgpu). rewrite fetch_metrics_result.
  destruct (cpu_percent t) as [c|e]; [|by left].
  destruct (virtual_memory t) as [ram|e]; [|by right; left].
  destruct (Hcpu c eq_refl) as [Hc0 Hc100].
  destruct (Hram ram eq_refl) as (Hp0 & Hp100 & Hused & Havail).
  assert (Hu : fle (float_of_int 0) (round (truediv (psutil.used ram) (1024 ^ 2)) 2)).
  { apply round_nonneg, truediv_nonneg; [done | lia]. }
  assert (Ha : fle (float_of_int 0) (round (truediv (psutil.available ram) (1024 ^ 2)) 2)).
  { apply round_nonneg, truediv_nonneg; [done | lia]. }
  destruct (getGPUs t) as [[|gpu gpus]|[|msg]] eqn:Hg; cbv zeta.
  - split; [|done]. repeat split; try done; apply zero_is_a_percentage.
  - specialize (Hgpu _ eq_refl). apply Forall_cons in Hgpu as [[Hl0 Hl1] _].
    split.
    + repeat split; try done; by apply load_as_percentage.
    + unfold gpu_unavailable. rewrite Hg. intros [Hno | [msg Hno]]; discriminate Hno.
  - right; right. done.
  - split; [|done]. repeat split; try done; apply zero_is_a_percentage.
Qed.

End Laws.


End Snapshot.

(** ** The whole run *)

Lemma count_events_app (p : event → bool) (l1 l2 : list event) :
  count_events p (l1 ++ l2) = (count_events p l1 + count_events p l2)%nat.
Proof. unfold count_events. by rewrite List.filter_app, length_app. Qed.

Lemma count_events_cons (p : event → bool) (ev : event) (l : list event) :
  count_events p (ev :: l) = ((if p ev then 1 else 0) + count_events p l)%nat.
Proof. unfold count_events. cbn [List.filter]. by destruct (p ev). Qed.




Section Run.
Context `{F : Float}.




End Run.

(** * Further properties *)

(** ** What a write depends on and what it touches *)

(** The files after a write depend on the files before it only. *)
Lemma emit_fs_ext (h : logging.RotatingFileHandler) (r : logging.LogRecord) (w1 w2 : World) :
  fs w1 = fs w2 → fs (logging.emit h r w1) = fs (logging.emit h r w2).
Proof.
  intros Hfs. rewrite !fs_emit. cbv zeta.
  assert (Hroll : logging.shouldRollover h r w1 = logging.shouldRollover h r w2).
  { unfold logging.shouldRollover. by rewrite Hfs. }
  rewrite Hroll. destruct (logging.shouldRollover h r w2); [|by rewrite Hfs].
  unfold logging.doRollover, logging.open_stream.
  destruct (0 <? logging.backupCount h)%nat; cbn; by rewrite Hfs.
Qed.

(** The streams after a write depend on the files and streams before it. *)
Lemma emit_streams_ext (h : logging.RotatingFileHandler) (r : logging.LogRecord) (w1 w2 : World) :
  fs w1 = fs w2 → open_streams w1 = open_streams w2 →
  open_streams (logging.emit h r w1) = open_streams (logging.emit h r w2).
Proof.
  intros Hfs Hos. unfold logging.emit.
  assert (Hroll : logging.shouldRollover h r w1 = logging.shouldRollover h r w2).
  { unfold logging.shouldRollover. by rewrite Hfs. }
  rewrite Hroll. destruct (logging.shouldRollover h r w2); [|cbn; by rewrite Hos].
  unfold logging.doRollover, logging.open_stream.
  destruct (0 <? logging.backupCount h)%nat; cbn; by rewrite Hos.
Qed.

Lemma emit_all_ext (h : logging.RotatingFileHandler) (rs : list logging.LogRecord) (w1 w2 : World) :
  fs w1 = fs w2 → open_streams w1 = open_streams w2 →
  fs (emit_all h rs w1) = fs (emit_all h rs w2) ∧
  open_streams (emit_all h rs w1) = open_streams (emit_all h rs w2).
Proof.
  revert w1 w2. induction rs as [|r rs IH]; intros w1 w2 Hfs Hos; [done|].
  cbn. apply IH; [by apply emit_fs_ext | by apply emit_streams_ext].
Qed.

Lemma emit_all_snoc (h : logging.RotatingFileHandler) (rs : list logging.LogRecord)
    (r : logging.LogRecord) (w : World) :
  emit_all h (rs ++ [r]) w = logging.emit h r (emit_all h rs w).
Proof. unfold emit_all. by rewrite foldl_app. Qed.

Lemma emit_all_cons (h : logging.RotatingFileHandler) (r : logging.LogRecord)
    (rs : list logging.LogRecord) (w : World) :
  emit_all h (r :: rs) w = emit_all h rs (logging.emit h r w).
Proof. reflexivity. Qed.





Lemma last_record (r : logging.LogRecord) (rs : list logging.LogRecord) :
  ∃ (init : list logging.LogRecord) (final : logging.LogRecord), r :: rs = init ++ [final].
Proof.
  revert r. induction rs as [|r' rs IH]; intros r.
  - by exists [], r.
  - destruct (IH r') as (init & final & ->). by exists (r :: init), final.
Qed.

(** A property of the contents of the files of the family that the new
    record alone has, and that the active file keeps when the record is
    appended without a rollover, holds of every file after the write. *)
Lemma emit_family (P : string → Prop) (path : string) (r : logging.LogRecord) (w : World) :
  (∀ i, P (content w (path, i))) →
  P (logging.record_line (monitor_handler path) r) →
  (logging.shouldRollover (monitor_handler path) r w = false →
   P (content w (path, 0%nat) +:+ logging.record_line (monitor_handler path) r)) →
  ∀ i, P (content (logging.emit (monitor_handler path) r w) (path, i)).
Proof.
  intros Hall Hnew Happ i.
  destruct (logging.shouldRollover (monitor_handler path) r w) eqn:Hroll.
  - destruct (emit_rotates (monitor_handler path) r w eq_refl Hroll path _ eq_refl eq_refl)
      as (H0 & H1 & H2 & H3).
    destruct i as [|[|[|[|i]]]]; unfold content.
    + rewrite H0. exact Hnew.
    + rewrite H1. apply Hall.
    + rewrite H2. apply Hall.
    + rewrite H3. pose proof (Hall 2%nat) as Htwo. unfold content in Htwo.
      destruct (fs w !! (path, 2%nat)); [exact Htwo | apply Hall].
    + rewrite fs_emit, Hroll. cbv zeta.
      change (logging.baseFilename (monitor_handler path)) with path.
      destruct (rollover3_lookup (monitor_handler path) w eq_refl _ _ eq_refl eq_refl)
        as (_ & _ & _ & _ & Hother).
      map_cases. rewrite Hother; [apply Hall|].
      rewrite !not_elem_of_cons. repeat split; try (intros [=]; lia). apply not_elem_of_nil.
  - destruct i as [|i]; unfold content.
    + rewrite emit_active_monitor, Hroll. by apply Happ.
    + rewrite emit_keeps; [apply Hall | done | intros [=]].
Qed.

Lemma emit_all_family (P : string → Prop) (Q : logging.LogRecord → Prop) (path : string)
    (rs : list logging.LogRecord) (w : World) :
  (∀ r, Q r → P (logging.record_line (monitor_handler path) r)) →
  (∀ r old, Q r → P old →
     Z.of_nat (String.length old)
       + Z.of_nat (String.length (logging.record_line (monitor_handler path) r))
     < logging.maxBytes (monitor_handler path) →
     P (old +:+ logging.record_line (monitor_handler path) r)) →
  Forall Q rs →
  (∀ i, P (content w (path, i))) →
  ∀ i, P (content (emit_all (monitor_handler path) rs w) (path, i)).
Proof.
  intros Hnew Happ Hrs. revert w. induction Hrs as [|r rs Hr Hrs IH]; intros w Hall; [done|].
  rewrite emit_all_cons. apply IH. apply emit_family; [done | by apply Hnew |].
  intros Hroll. apply Happ; [done | apply Hall |].
  unfold logging.shouldRollover in Hroll.
  apply andb_false_iff in Hroll as [Hroll|Hroll]; [discriminate Hroll|].
  apply Z.leb_gt in Hroll. exact Hroll.
Qed.



(** ** What a run does to the disk *)

Section Disk.
Context `{F : Float}.

Lemma is_tick_record_cons (self : SystemMonitor) (t : TickEnv) (script : list TickEnv)
    (r : logging.LogRecord) :
  is_tick_record self script r → is_tick_record self (t :: script) r.
Proof.
  intros (t' & m & w & Ht & Hm & Hr). exists t', m, w. split; [|done].
  by apply list_elem_of_further.
Qed.

(** The disk an iteration leaves: as before it, or as after writing the
    record of the snapshot. *)
Lemma loop_body_disk (self : SystemMonitor) (path : string) (t : TickEnv) (w : World) :
  logger self = monitor_logger path →
  match result_of (fetch_metrics self t) w with
  | Returns m =>
      fs (world_after (loop_body self t) w)
        = fs (logging.emit (monitor_handler path) (tick_record t m) w) ∧
      open_streams (world_after (loop_body self t) w)
        = open_streams (logging.emit (monitor_handler path) (tick_record t m) w)
  | Raises e =>
      fs (world_after (loop_body self t) w) = fs w ∧
      open_streams (world_after (loop_body self t) w) = open_streams w ∧
      result_of (loop_body self t) w = Raises e
  end.
Proof.
  intros Hlg.
  destruct (fetch_metrics_frame self path t w Hlg) as (evs & Hwm & _).
  unfold result_of, world_after in *.
  destruct (fetch_metrics self t w) as [[m|e] wm] eqn:Hfetch; cbn [fst snd] in *.
  - destruct (loop_body_after_fetch self path t w wm m Hlg Hfetch) as (later & Hw & _).
    unfold world_after in Hw. rewrite Hw. cbv zeta. cbn [fs open_streams]. subst wm.
    split; [by apply emit_fs_ext | by apply emit_streams_ext].
  - rewrite (loop_body_no_fetch self t w wm e Hfetch). cbn [fst snd]. subst wm. done.
Qed.

Lemma while_True_disk (self : SystemMonitor) (path : string) (script : list TickEnv) (w : World) :
  logger self = monitor_logger path →
  ∃ rs : list logging.LogRecord,
    fs (while_True (loop_body self) script w).2 = fs (emit_all (monitor_handler path) rs w) ∧
    open_streams (while_True (loop_body self) script w).2
      = open_streams (emit_all (monitor_handler path) rs w) ∧
    (length rs ≤ length script)%nat ∧
    Forall (is_tick_record self script) rs.
Proof.
  intros Hlg. revert w. induction script as [|t script IH]; intros w.
  - exists []. cbn. repeat split; [lia | constructor].
  - pose proof (loop_body_disk self path t w Hlg) as Hbody.
    unfold world_after in Hbody. cbn [while_True].
    destruct (result_of (fetch_metrics self t) w) as [m|e] eqn:Hfetch.
    + destruct Hbody as [Hfs Hos].
      assert (Htick : is_tick_record self (t :: script) (tick_record t m)).
      { exists t, m, w. split; [apply list_elem_of_here | done]. }
      destruct (loop_body self t w) as [[[]|e] w'] eqn:Hb; cbn [snd] in Hfs, Hos.
      * destruct (IH w') as (rs & Hrs & Hrs' & Hlen & Hall).
        destruct (emit_all_ext (monitor_handler path) rs w'
                    (logging.emit (monitor_handler path) (tick_record t m) w) Hfs Hos)
          as [Hext Hext'].
        exists (tick_record t m :: rs). rewrite emit_all_cons, Hrs, Hrs'.
        split; [done|]. split; [done|]. split; [cbn; lia|].
        constructor; [done|]. eapply Forall_impl; [exact Hall|]. apply is_tick_record_cons.
      * exists [tick_record t m]. cbn [snd]. split; [done|]. split; [done|].
        split; [cbn; lia|]. by repeat constructor.
    + destruct Hbody as (Hfs & Hos & Hres). unfold result_of in Hres.
      destruct (loop_body self t w) as [[[]|e'] w'] eqn:Hb; [discriminate Hres|].
      exists []. cbn [snd] in *. split; [done|]. split; [done|]. split; [cbn; lia | constructor].
Qed.

(** The exception that leaves the loop is the one an iteration raised. *)
Lemma while_True_raised (self : SystemMonitor) (script : list TickEnv) (w : World) (e : exn) :
  (while_True (loop_body self) script w).1 = Some e →
  ∃ t w', t ∈ script ∧ result_of (loop_body self t) w' = Raises e.
Proof.
  revert w. induction script as [|t script IH]; intros w; [done|].
  cbn [while_True]. destruct (loop_body self t w) as [[[]|e'] w'] eqn:Hb.
  - intros Hraised. destruct (IH w' Hraised) as (t' & w'' & Ht' & Hres).
    exists t', w''. split; [by apply list_elem_of_further | done].
  - intros [= ->]. exists t, w. split; [apply list_elem_of_here|].
    unfold result_of. by rewrite Hb.
Qed.

(** The disk a run leaves is the one its records, written in turn, leave. *)
Lemma run_disk (self : SystemMonitor) (path : string) (env : RunEnv) (w : World) :
  logger self = monitor_logger path →
  ∃ (ticked : list logging.LogRecord) (raised : option exn),
    fs (world_after (run self env) w)
      = fs (emit_all (monitor_handler path) (run_records self env ticked raised) w) ∧
    open_streams (world_after (run self env) w)
      = open_streams (emit_all (monitor_handler path) (run_records self env ticked raised) w) ∧
    (length ticked ≤ length (ticks env))%nat ∧
    Forall (is_tick_record self (ticks env)) ticked ∧
    (∀ e, raised = Some e →
       ∃ t w', t ∈ ticks env ∧ result_of (loop_body self t) w' = Raises e) ∧
    result_of (run self env) w
      = Returns (match raised with Some _ => Returned | None => Running end).
Proof.
  intros Hlg.
  set (hdr := header_record self env).
  assert (Hstart : fs (world_after (startup self env) w) = fs (logging.emit (monitor_handler path) hdr w) ∧
                   open_streams (world_after (startup self env) w)
                   = open_streams (logging.emit (monitor_handler path) hdr w)).
  { unfold world_after. rewrite (startup_effect self path env w Hlg). cbn [snd].
    split; [by apply emit_fs_ext | by apply emit_streams_ext]. }
  destruct Hstart as [Hsfs Hsos].
  destruct (while_True_disk self path (ticks env) (world_after (startup self env) w) Hlg)
    as (rs & Hrs & Hrs' & Hlen & Hall).
  destruct (emit_all_ext (monitor_handler path) rs _ _ Hsfs Hsos) as [Hext Hext'].
  rewrite Hext in Hrs. rewrite Hext' in Hrs'. rewrite <- !emit_all_cons in Hrs, Hrs'.
  pose proof (while_True_raised self (ticks env) (world_after (startup self env) w)) as Hraised.
  exists rs, (while_True (loop_body self) (ticks env) (world_after (startup self env) w)).1.
  unfold world_after, result_of in *. rewrite run_unfold. unfold world_after.
  destruct (while_True _ _ _) as [[e|] wl]; cbn [fst snd] in *.
  - assert (Hfinal : ∀ w1 w2, fs w1 = fs wl → open_streams w1 = open_streams wl →
              w2 = logging.emit (monitor_handler path) (final_record env e) w1 →
              fs w2 = fs (emit_all (monitor_handler path) (run_records self env rs (Some e)) w) ∧
              open_streams w2 = open_streams (emit_all (monitor_handler path) (run_records self env rs (Some e)) w)).
    { intros w1 w2 Hfs Hos ->. unfold run_records.
      rewrite app_comm_cons, emit_all_snoc.
      fold hdr. split; [apply emit_fs_ext | apply emit_streams_ext]; congruence. }
    rewrite Hlg. destruct e as [|msg].
    + destruct (Hfinal (record_event (ELog INFO STOPPED)
                  (record_event (EStdout (newline +:+ newline +:+ "Stopping service..." +:+ newline)) wl))
                  _ eq_refl eq_refl eq_refl) as [Hfs Hos].
      repeat split; try done.
    + destruct (Hfinal (record_event (ELog CRITICAL ("Unexpected error: " +:+ msg)) wl)
                  _ eq_refl eq_refl eq_refl) as [Hfs Hos].
      repeat split; try done.
  - unfold run_records. rewrite app_nil_r. repeat split; try done.
Qed.



(** X3: whenever [run] has written its last record, and whatever the log
    held before, the active log file is not empty and ends with a newline:
    no record is left half-written. *)
Theorem log_never_ends_mid_line (secs : Z) (path : string) (w0 w1 : World)
    (self : SystemMonitor) (env : RunEnv) (w : World) :
  __init__ secs path w0 = (Returns self, w1) →
  closed_by_newline (content (world_after (run self env) w) (path, 0%nat)) ∧
  content (world_after (run self env) w) (path, 0%nat) ≠ ""%string.
Proof.
  intros Hinit. apply init_returns in Hinit as (Hlg & _).
  destruct (run_disk self path env w Hlg) as (ticked & raised & Hfs & _).
  unfold run_records in Hfs.
  destruct (last_record (header_record self env)
              (ticked ++ match raised with Some e => [final_record env e] | None => [] end))
    as (init & final & Hlast).
  rewrite Hlast, emit_all_snoc in Hfs.
  unfold content. rewrite Hfs.
  split; [apply emit_closed_by_newline|].
  rewrite emit_active_monitor. cbn [default]. unfold logging.record_line, newline.
  generalize (logging.format (logging.formatter (monitor_handler path)) final).
  generalize (if logging.shouldRollover (monitor_handler path) final
                   (emit_all (monitor_handler path) init w)
              then ""%string else content (emit_all (monitor_handler path) init w) (path, 0%nat)).
  intros [|c a] [|d b]; done.
Qed.

End Disk.

(** ** What a run does, iteration by iteration *)

Lemma count_events_zero (p q : event → bool) (evs : list event) :
  (∀ ev, q ev = true → p ev = false) →
  forallb q evs = true → count_events p evs = 0%nat.
Proof.
  intros Hp. induction evs as [|ev evs IH]; [done|].
  cbn [forallb]. intros [Hev Hevs]%andb_prop.
  rewrite count_events_cons, (Hp ev Hev). by apply IH.
Qed.

Lemma without_debug_app (l1 l2 : list event) :
  without_debug (l1 ++ l2) = without_debug l1 ++ without_debug l2.
Proof. apply List.filter_app. Qed.

Section Iterations.
Context `{F : Float}.

(** An iteration returns exactly when every call of it answers. *)
Lemma loop_body_returns (self : SystemMonitor) (t : TickEnv) (w : World) :
  returned (result_of (loop_body self t) w) = completes t.
Proof.
  rewrite loop_body_result. unfold completes.
  destruct (cpu_percent t) as [c|e]; [|done].
  destruct (virtual_memory t) as [ram|e]; [|done].
  destruct (getGPUs t) as [gpus|[|msg]]; [|done|];
    destruct (stdout_write t) as [[]|e]; try done;
    destruct (stdout_flush t) as [[]|e]; try done;
    destruct (sleep t) as [[]|e]; done.
Qed.

Lemma fetch_metrics_events (self : SystemMonitor) (path : string) (t : TickEnv) (w : World) :
  logger self = monitor_logger path →
  ∃ evs, trace (world_after (fetch_metrics self t) w) = trace w ++ evs ∧
         forallb is_fetch_event evs = true.
Proof.
  intros Hlg. unfold fetch_metrics, _get_gpu_info. rewrite Hlg.
  destruct (cpu_percent t) as [c|e].
  2:{ run_M. by exists [EQuery psutil_cpu_percent]. }
  destruct (virtual_memory t) as [ram|e].
  2:{ run_M. exists [EQuery psutil_cpu_percent; EQuery psutil_virtual_memory].
      by rewrite <- app_assoc. }
  destruct (getGPUs t) as [[|gpu gpus]|[|msg]]; run_M; unfold record_event; cbn;
    rewrite <- ?app_assoc; cbn; by eexists.
Qed.

(** What a complete iteration adds to the trace: one [INFO] record and one
    sleep of the configured interval. *)
Lemma loop_body_counts (self : SystemMonitor) (path : string) (t : TickEnv) (w : World) :
  logger self = monitor_logger path →
  completes t = true →
  ∃ evs, trace (world_after (loop_body self t) w) = trace w ++ evs ∧
    count_events (is_sleep (interval self)) evs = 1%nat ∧
    count_events is_info_log evs = 1%nat.
Proof.
  intros Hlg Hc.
  destruct (fetch_metrics_events self path t w Hlg) as (evs & Hwm & Hevs).
  assert (Hret : returned (result_of (loop_body self t) w) = true)
    by (by rewrite loop_body_returns).
  unfold completes in Hc.
  destruct (stdout_write t) as [[]|?] eqn:Hwrite; [|by rewrite !andb_false_r in Hc].
  destruct (stdout_flush t) as [[]|?] eqn:Hflush; [|by rewrite !andb_false_r in Hc].
  destruct (sleep t) as [[]|?] eqn:Hsleep; [|by rewrite !andb_false_r in Hc].
  unfold world_after, result_of in *.
  destruct (fetch_metrics self t w) as [[m|e] wm] eqn:Hfetch; cbn [snd] in Hwm.
  2:{ rewrite (loop_body_no_fetch self t w wm e Hfetch) in Hret. discriminate Hret. }
  exists (evs ++ [ELog INFO (log_msg m); EStdout (live_line m); EFlush; ESleep (interval self)]).
  split.
  - unfold loop_body. unfold mbind at 1, M_bind at 1. rewrite Hfetch, Hlg.
    unfold mbind at 1, M_bind at 1. rewrite info_monitor.
    rewrite Hwrite, Hflush, Hsleep. run_M. unfold record_event. cbn.
    rewrite (proj1 (proj2 (emit_frame _ _ _))). cbn. rewrite Hwm.
    by rewrite <- !app_assoc.
  - rewrite !count_events_app.
    rewrite (count_events_zero (is_sleep (interval self)) is_fetch_event evs),
      (count_events_zero is_info_log is_fetch_event evs); try done.
    + rewrite !count_events_cons. cbn. by rewrite Z.eqb_refl.
    + by intros [q|[] s| | |].
    + by intros [q|[] s| | |].
Qed.

Lemma while_True_counts (self : SystemMonitor) (path : string) (script : list TickEnv) (w : World) :
  logger self = monitor_logger path →
  forallb completes script = true →
  (while_True (loop_body self) script w).1 = None ∧
  ∃ evs, trace (while_True (loop_body self) script w).2 = trace w ++ evs ∧
    count_events (is_sleep (interval self)) evs = length script ∧
    count_events is_info_log evs = length script.
Proof.
  intros Hlg. revert w. induction script as [|t script IH]; intros w Hall.
  - cbn. split; [done|]. exists []. by rewrite app_nil_r.
  - cbn [forallb] in Hall. apply andb_prop in Hall as [Ht Hall].
    destruct (loop_body_counts self path t w Hlg Ht) as (evs & Htr & Hs & Hi).
    pose proof (loop_body_returns self t w) as Hret. rewrite Ht in Hret.
    unfold world_after, result_of in *. cbn [while_True].
    destruct (loop_body self t w) as [[[]|e] w']; [|discriminate Hret]. cbn [snd] in Htr.
    destruct (IH w' Hall) as (Hnone & evs' & Htr' & Hs' & Hi').
    split; [done|]. exists (evs ++ evs').
    rewrite Htr', Htr, <- app_assoc, !count_events_app, Hs, Hi, Hs', Hi'. done.
Qed.

Lemma while_True_raises (self : SystemMonitor) (script : list TickEnv) (w : World) :
  forallb completes script = false →
  ∃ e, (while_True (loop_body self) script w).1 = Some e.
Proof.
  revert w. induction script as [|t script IH]; intros w Hall; [done|].
  cbn [forallb] in Hall. pose proof (loop_body_returns self t w) as Hret.
  unfold result_of in Hret. cbn [while_True].
  destruct (loop_body self t w) as [[[]|e] w']; cbn in Hret.
  - rewrite <- Hret in Hall. by apply IH.
  - by exists e.
Qed.

(** X4: the loop of [run] is left by an exception only. [run] returns
    exactly when some call of some iteration raises (an instance of
    [Exception] raised by the GPU query does not count, it never leaves
    [_get_gpu_info]); as long as every call answers, [run] is still looping,
    and it has then logged one [INFO] record for each iteration beside the
    header, and slept once in each iteration, for the interval the monitor
    was built with. *)
Theorem loop_is_left_only_by_an_exception (secs : Z) (path : string) (w0 w1 : World)
    (self : SystemMonitor) (env : RunEnv) (w : World) :
  __init__ secs path w0 = (Returns self, w1) →
  result_of (run self env) w
    = Returns (if forallb completes (ticks env) then Running else Returned) ∧
  (forallb completes (ticks env) = true →
   ∃ evs, trace (world_after (run self env) w) = trace w ++ evs ∧
     count_events (is_sleep secs) evs = length (ticks env) ∧
     count_events is_info_log evs = S (length (ticks env))).
Proof.
  intros Hinit. apply init_returns in Hinit as (Hlg & _ & Hsecs & _).
  destruct (startup_frame self path env w Hlg) as (_ & _ & _ & Hstart).
  unfold result_of, world_after in *. rewrite run_unfold.
  destruct (forallb completes (ticks env)) eqn:Hall.
  - destruct (while_True_counts self path (ticks env) (startup self env w).2 Hlg Hall)
      as (Hnone & evs & Htr & Hs & Hi).
    unfold world_after. destruct (while_True _ _ _) as [raised wl]. cbn in Hnone. subst raised.
    split; [done|]. intros _. cbn [snd] in *.
    eexists. rewrite Htr, Hstart, <- app_assoc. split; [done|].
    rewrite !count_events_app, !count_events_cons, <- Hsecs, Hs, Hi. cbn. done.
  - destruct (while_True_raises self (ticks env) (startup self env w).2 Hall) as (e & He).
    unfold world_after. destruct (while_True _ _ _) as [raised wl]. cbn in He. subst raised.
    split; [|done]. rewrite Hlg. by destruct e.
Qed.

(** X5: an iteration whose GPU query raises an instance of [Exception]
    cannot be told, from the log or the console, from one on a host with no
    GPU: the snapshot, the outcome of the iteration, the files, the open
    streams and every external call except the one to [logger.debug] are
    those of the same iteration with an empty GPU list. *)
Theorem gpu_failure_reads_as_no_gpu (secs : Z) (path : string) (w0 w1 : World)
    (self : SystemMonitor) (t : TickEnv) (msg : string) (w : World) :
  __init__ secs path w0 = (Returns self, w1) →
  getGPUs t = Raises (Exception msg) →
  let failed := world_after (loop_body self t) w in
  let absent := world_after (loop_body self (with_getGPUs (Returns []) t)) w in
  result_of (fetch_metrics self t) w
    = result_of (fetch_metrics self (with_getGPUs (Returns []) t)) w ∧
  result_of (loop_body self t) w = result_of (loop_body self (with_getGPUs (Returns []) t)) w ∧
  fs failed = fs absent ∧
  open_streams failed = open_streams absent ∧
  without_debug (trace failed) = without_debug (trace absent).
Proof.
  intros Hinit Hgpu. apply init_returns in Hinit as (Hlg & _).
  cbv zeta. unfold loop_body, fetch_metrics, _get_gpu_info.
  cbn [with_getGPUs now cpu_percent virtual_memory getGPUs stdout_write stdout_flush sleep].
  rewrite Hlg, Hgpu.
  destruct (cpu_percent t) as [c|e]; [|by run_M].
  destruct (virtual_memory t) as [ram|e]; [|by run_M].
  destruct (stdout_write t) as [[]|e]; destruct (stdout_flush t) as [[]|e'];
    destruct (sleep t) as [[]|e'']; run_M; unfold record_event; cbn;
    rewrite !(proj1 (proj2 (emit_frame _ _ _))); cbn;
    (repeat split;
     [ by apply emit_fs_ext | by apply emit_streams_ext
     | rewrite !without_debug_app; cbn; by rewrite ?app_nil_r ]).
Qed.

(** X6: the record of an iteration is in the file before the console is
    written. Once the snapshot is taken, the files after the iteration are
    those after writing its record, whatever [stdout.write], [flush] and
    [sleep] answer, and the record ends the active file; if the snapshot is
    not taken, no file changes and the exception leaves the iteration. *)
Theorem record_is_written_before_the_console (secs : Z) (path : string) (w0 w1 : World)
    (self : SystemMonitor) (t : TickEnv) (w : World) :
  __init__ secs path w0 = (Returns self, w1) →
  match result_of (fetch_metrics self t) w with
  | Returns m =>
      fs (world_after (loop_body self t) w)
        = fs (logging.emit (monitor_handler path) (tick_record t m) w) ∧
      ∃ old, fs (world_after (loop_body self t) w) !! (path, 0%nat)
             = Some (old +:+ logging.record_line (monitor_handler path) (tick_record t m))
  | Raises e =>
      fs (world_after (loop_body self t) w) = fs w ∧
      result_of (loop_body self t) w = Raises e
  end.
Proof.
  intros Hinit. apply init_returns in Hinit as (Hlg & _).
  pose proof (loop_body_disk self path t w Hlg) as Hbody.
  destruct (result_of (fetch_metrics self t) w) as [m|e].
  - destruct Hbody as [Hfs _]. split; [done|]. rewrite Hfs, emit_active_monitor. by eexists.
  - by destruct Hbody as (Hfs & _ & Hres).
Qed.


End Iterations.

(** ** The lines of the log *)

Lemma one_line_append (a b : string) : one_line (a +:+ b) = one_line a && one_line b.
Proof. unfold one_line. by rewrite contains_char_append, negb_orb. Qed.

Lemma one_line_no_newline (s : string) : one_line s = true ↔ contains_char "010" s = false.
Proof. unfold one_line. by destruct (contains_char "010" s). Qed.

Lemma repr_char_one_line (q c : ascii) :
  q = squote ∨ q = dquote → one_line (repr_char q c) = true.
Proof. intros [-> | ->]; destruct c as [[] [] [] [] [] [] [] []]; vm_compute; reflexivity. Qed.

Lemma repr_body_one_line (q : ascii) (s : string) :
  q = squote ∨ q = dquote → one_line (repr_body q s) = true.
Proof.
  intros Hq. induction s as [|c s IH]; [reflexivity|].
  cbn [repr_body]. by rewrite one_line_append, repr_char_one_line, IH.
Qed.

(** [repr] escapes the newlines of a string. *)
Lemma repr_str_one_line (s : string) : one_line (repr_str s) = true.
Proof.
  unfold repr_str.
  destruct (contains_char squote s && negb (contains_char dquote s)).
  - change (String dquote (repr_body dquote s +:+ String dquote ""))
      with (String dquote "" +:+ repr_body dquote s +:+ String dquote "").
    rewrite !one_line_append, repr_body_one_line; [reflexivity | by right].
  - change (String squote (repr_body squote s +:+ String squote ""))
      with (String squote "" +:+ repr_body squote s +:+ String squote "").
    rewrite !one_line_append, repr_body_one_line; [reflexivity | by left].
Qed.

Lemma string_of_uint_one_line (d : Decimal.uint) :
  one_line (NilEmpty.string_of_uint d) = true.
Proof. induction d; cbn; done. Qed.

Lemma nilzero_one_line (d : Decimal.uint) : one_line (NilZero.string_of_uint d) = true.
Proof. destruct d; first [reflexivity | exact (string_of_uint_one_line _)]. Qed.

Lemma str_int_one_line (n : Z) : one_line (str_int n) = true.
Proof.
  unfold str_int, NilZero.string_of_int.
  destruct (Z.to_int n) as [d|d]; exact (nilzero_one_line d).
Qed.

(** A text closed by a newline splits into lines on its own. *)
Lemma file_lines_closed_nonempty (a : string) : file_lines (a +:+ newline) ≠ [].
Proof.
  induction a as [|c a IH]; [done|]. cbn.
  destruct (Ascii.eqb c "010"); [done|]. by destruct (file_lines (a +:+ newline)).
Qed.

Lemma file_lines_app_closed (old s : string) :
  closed_by_newline old → file_lines (old +:+ s) = file_lines old ++ file_lines s.
Proof.
  intros [-> | [a ->]]; [reflexivity|].
  induction a as [|c a IH]; [reflexivity|].
  cbn. rewrite IH. destruct (Ascii.eqb c "010"); [reflexivity|].
  pose proof (file_lines_closed_nonempty a) as Hne.
  by destruct (file_lines (a +:+ newline)).
Qed.

(** A record with a one-line message is one line of the form. *)
Lemma record_line_shape (t : struct_time) (l : Level) (m : string) :
  one_line m = true →
  is_record_line (strftime "%Y-%m-%d %H:%M:%S" t +:+ " | " +:+ levelname l +:+ " | " +:+ m) = true.
Proof.
  intros Hm%one_line_no_newline. unfold is_record_line.
  rewrite (record_text_no_newline t l m Hm).
  change "dddd-dd-dd dd:dd:dd | "%string with ("dddd-dd-dd dd:dd:dd" +:+ " | ")%string.
  rewrite (match_shape_append _ _ _ _ (proj1 (strftime_shape t _))).
  cbn. destruct l; cbn; reflexivity.
Qed.

Lemma record_one_line (path : string) (r : logging.LogRecord) :
  one_line (logging.msg r) = true →
  file_lines (logging.record_line (monitor_handler path) r) =
    [strftime "%Y-%m-%d %H:%M:%S" (logging.created r) +:+ " | " +:+
       levelname (logging.level r) +:+ " | " +:+ logging.msg r] ∧
  forallb is_log_line (file_lines (logging.record_line (monitor_handler path) r)) = true.
Proof.
  intros Hm.
  assert (Hlines : file_lines (logging.record_line (monitor_handler path) r) =
    [strftime "%Y-%m-%d %H:%M:%S" (logging.created r) +:+ " | " +:+
       levelname (logging.level r) +:+ " | " +:+ logging.msg r]).
  { rewrite record_line_configured.
    replace (strftime "%Y-%m-%d %H:%M:%S" (logging.created r) +:+ " | " +:+
             levelname (logging.level r) +:+ " | " +:+ logging.msg r +:+ newline)
      with ((strftime "%Y-%m-%d %H:%M:%S" (logging.created r) +:+ " | " +:+
             levelname (logging.level r) +:+ " | " +:+ logging.msg r) +:+ newline)
      by (by rewrite !append_assoc).
    apply file_lines_one, record_text_no_newline. by apply one_line_no_newline. }
  split; [exact Hlines|]. rewrite Hlines. cbn [forallb]. unfold is_log_line.
  by rewrite record_line_shape.
Qed.

Lemma content_emit_monitor (path : string) (r : logging.LogRecord) (w : World) :
  content (logging.emit (monitor_handler path) r w) (path, 0%nat) =
  (if logging.shouldRollover (monitor_handler path) r w then ""%string
   else content w (path, 0%nat)) +:+ logging.record_line (monitor_handler path) r.
Proof. unfold content at 1. by rewrite emit_active_monitor. Qed.

Section Lines.
Context `{F : Float}.

(** No fact of the host can break a line: [str] of the dictionary renders
    its strings by [repr]. *)
Lemma str_OsInfo_one_line (info : OsInfo) : one_line (str_OsInfo info) = true.
Proof.
  unfold str_OsInfo. rewrite !one_line_append, !repr_str_one_line.
  destruct (Cores info) as [n|]; [by rewrite str_int_one_line | reflexivity].
Qed.

(** The header record is two lines. *)
Lemma header_two_lines (path : string) (now : struct_time) (info : OsInfo) :
  file_lines (logging.record_line (monitor_handler path)
                {| logging.created := now; logging.level := INFO; logging.msg := header info |}) =
    [strftime "%Y-%m-%d %H:%M:%S" now +:+ " | INFO | --- MONITOR STARTED ---";
     "System Info: " +:+ str_OsInfo info].
Proof.
  rewrite record_line_configured. cbn [logging.created logging.level logging.msg levelname].
  unfold header.
  replace (strftime "%Y-%m-%d %H:%M:%S" now +:+ " | " +:+ "INFO" +:+ " | " +:+
           ("--- MONITOR STARTED ---" +:+ newline +:+ "System Info: " +:+ str_OsInfo info)
           +:+ newline)
    with ((strftime "%Y-%m-%d %H:%M:%S" now +:+ " | INFO | --- MONITOR STARTED ---")
            +:+ String "010" (("System Info: " +:+ str_OsInfo info) +:+ newline))
    by (rewrite !append_assoc; reflexivity).
  rewrite file_lines_line.
  - rewrite file_lines_one; [reflexivity|].
    apply one_line_no_newline. by rewrite one_line_append, str_OsInfo_one_line.
  - apply (record_text_no_newline now INFO "--- MONITOR STARTED ---"). reflexivity.
Qed.

Lemma header_lines_are_log_lines (path : string) (now : struct_time) (info : OsInfo) :
  forallb is_log_line
    (file_lines (logging.record_line (monitor_handler path)
                   {| logging.created := now; logging.level := INFO; logging.msg := header info |}))
  = true.
Proof.
  pose proof (record_line_shape now INFO "--- MONITOR STARTED ---" eq_refl) as Hshape.
  change (is_record_line
            (strftime "%Y-%m-%d %H:%M:%S" now +:+ " | INFO | --- MONITOR STARTED ---") = true)
    in Hshape.
  rewrite header_two_lines. cbn [forallb]. unfold is_log_line. rewrite Hshape.
  cbn [orb andb]. by rewrite orb_true_r.
Qed.

(** X8: the startup header is exactly two lines of the log, whatever the
    host answers: written to a log that ends with a newline (or is empty),
    [log_system_info] adds the line [<timestamp> | INFO | --- MONITOR STARTED
    ---] and the line [System Info: <the dictionary>] and nothing else; the
    dictionary never breaks the line, since its strings are rendered by
    [repr]. *)
Theorem header_is_exactly_two_lines (secs : Z) (path : string) (w0 w1 : World)
    (self : SystemMonitor) (now : struct_time) (w : World) :
  __init__ secs path w0 = (Returns self, w1) →
  closed_by_newline (content w (path, 0%nat)) →
  one_line (str_OsInfo (os_info self)) = true ∧
  ∃ before : list string,
    (before = [] ∨ before = file_lines (content w (path, 0%nat))) ∧
    file_lines (content (world_after (log_system_info self now) w) (path, 0%nat)) =
      before ++ [strftime "%Y-%m-%d %H:%M:%S" now +:+ " | INFO | --- MONITOR STARTED ---";
                 "System Info: " +:+ str_OsInfo (os_info self)].
Proof.
  intros Hinit Hclosed. apply init_returns in Hinit as (Hlg & _).
  split; [apply str_OsInfo_one_line|].
  unfold log_system_info, world_after. rewrite Hlg, info_monitor. cbn [snd].
  rewrite content_emit_monitor.
  change (content (record_event (ELog INFO (header (os_info self))) w) (path, 0%nat))
    with (content w (path, 0%nat)).
  destruct (logging.shouldRollover _ _ _).
  - exists []. split; [by left|]. rewrite append_empty_l. apply header_two_lines.
  - exists (file_lines (content w (path, 0%nat))). split; [by right|].
    rewrite file_lines_app_closed by (exact Hclosed).
    by rewrite header_two_lines.
Qed.

Lemma log_msg_one_line (m : Metrics) :
  (∀ x : float, one_line (float_str x) = true) →
  one_line (gpu_name m) = true → one_line (log_msg m) = true.
Proof.
  intros Hfloat Hname. unfold log_msg. rewrite !one_line_append, !Hfloat, Hname. reflexivity.
Qed.

Lemma snapshot_name_one_line (self : SystemMonitor) (t : TickEnv) (w : World) (m : Metrics) :
  one_line_answers t = true →
  result_of (fetch_metrics self t) w = Returns m → one_line (gpu_name m) = true.
Proof.
  unfold one_line_answers. intros Hone. rewrite fetch_metrics_result.
  destruct (cpu_percent t) as [c|e]; [|done].
  destruct (virtual_memory t) as [ram|e]; [|done].
  destruct (getGPUs t) as [[|gpu gpus]|[|msg]]; cbv zeta; intros [= <-]; cbn; try done.
  cbn in Hone. by repeat (apply andb_prop in Hone as [Hone ?]).
Qed.

Lemma raised_message_one_line (self : SystemMonitor) (t : TickEnv) (w : World) (msg : string) :
  one_line_answers t = true →
  result_of (loop_body self t) w = Raises (Exception msg) → one_line msg = true.
Proof.
  unfold one_line_answers. intros Hone. rewrite loop_body_result.
  repeat (apply andb_prop in Hone as [Hone ?]).
  destruct (cpu_percent t) as [c|e]; [|by intros [= ->]].
  destruct (virtual_memory t) as [ram|e]; [|by intros [= ->]].
  destruct (getGPUs t) as [gpus|[|msg']]; [|done|];
    (destruct (stdout_write t) as [[]|e]; [|by intros [= ->]];
     destruct (stdout_flush t) as [[]|e]; [|by intros [= ->]];
     destruct (sleep t) as [[]|e]; [done | by intros [= ->]]).
Qed.

(** Writing a record with a one-line message, or the header, keeps a log
    well formed. *)
Lemma well_formed_log_append (path : string) (r : logging.LogRecord) (old : string) :
  one_line (logging.msg r) = true ∨
    (logging.level r = INFO ∧ ∃ info, logging.msg r = header info) →
  well_formed_log old →
  well_formed_log (old +:+ logging.record_line (monitor_handler path) r).
Proof.
  intros Hr [Hclosed Hlines]. split.
  - right. unfold logging.record_line. eexists. by rewrite <- append_assoc.
  - rewrite file_lines_app_closed by done. rewrite forallb_app, Hlines. cbn [andb].
    destruct Hr as [Hone | (Hlevel & info & Hmsg)].
    + by apply record_one_line.
    + destruct r as [now l m]. cbn in Hlevel, Hmsg. subst l m.
      apply header_lines_are_log_lines.
Qed.

(** X9: a run keeps the log readable line by line. If [str] of a float
    holds no newline, and neither do the GPU names and the exception messages
    the environment answers with, then every file of the log's family that
    was well formed before [run] is well formed after it: it ends with a
    newline (or is empty) and each of its lines is a record line [YYYY-MM-DD
    HH:MM:SS | LEVEL | message] or the [System Info: ] line of a header. *)
Theorem log_keeps_its_line_structure (secs : Z) (path : string) (w0 w1 : World)
    (self : SystemMonitor) (env : RunEnv) (w : World) :
  __init__ secs path w0 = (Returns self, w1) →
  (∀ x : float, one_line (float_str x) = true) →
  forallb one_line_answers (ticks env) = true →
  (∀ i, well_formed_log (content w (path, i))) →
  ∀ i, well_formed_log (content (world_after (run self env) w) (path, i)).
Proof.
  intros Hinit Hfloat Hone Hbefore i. apply init_returns in Hinit as (Hlg & _).
  destruct (run_disk self path env w Hlg) as (ticked & raised & Hfs & _ & _ & Hall & He & _).
  assert (Hanswers : ∀ t, t ∈ ticks env → one_line_answers t = true).
  { intros t Ht. rewrite forallb_forall in Hone. apply Hone. by apply list_elem_of_In. }
  unfold content. rewrite Hfs.
  apply (emit_all_family well_formed_log
           (λ r, one_line (logging.msg r) = true ∨
                 (logging.level r = INFO ∧ ∃ info, logging.msg r = header info))
           path (run_records self env ticked raised) w); [| |clear i|exact Hbefore].
  - intros r Hr. rewrite <- append_empty_l. apply well_formed_log_append; [done|].
    split; [by left | reflexivity].
  - intros r old Hr Hold _. by apply well_formed_log_append.
  - unfold run_records. constructor; [right; split; [reflexivity | by eexists]|].
    apply Forall_app. split.
    + eapply Forall_impl; [exact Hall|]. intros r (t & m & w' & Ht & Hm & ->). left.
      apply log_msg_one_line; [done|]. by apply (snapshot_name_one_line self t w' m); auto.
    + destruct raised as [[|msg]|]; [| |constructor].
      * constructor; [by left | constructor].
      * constructor; [|constructor]. left.
        destruct (He _ eq_refl) as (t & w' & Ht & Hres).
        cbn [final_record logging.msg]. rewrite one_line_append.
        apply andb_true_intro. split; [reflexivity|].
        apply (raised_message_one_line self t w' msg); auto.
Qed.

End Lines.

(** [str] of a rational holds no newline. *)
Lemma zeros_one_line (n : nat) : one_line (zeros n) = true.
Proof. induction n as [|n IH]; [reflexivity | exact IH]. Qed.

Lemma strip_zeros_one_line (s : string) : one_line s = true → one_line (strip_zeros s) = true.
Proof.
  unfold one_line. induction s as [|c s IH]; [done|].
  cbn [contains_char strip_zeros]. rewrite negb_orb. intros [Hc Hs]%andb_prop.
  specialize (IH Hs). destruct (strip_zeros s) as [|d r].
  - destruct (Ascii.eqb c "0"); [reflexivity|]. cbn. by rewrite orb_false_r.
  - cbn [contains_char]. rewrite negb_orb, Hc. exact IH.
Qed.

Lemma Q_str_one_line (q : Q) : one_line (Q_str q) = true.
Proof.
  unfold Q_str, fraction_digits. cbv zeta. rewrite !one_line_append, str_int_one_line.
  set (frac := strip_zeros _).
  assert (Hfrac : one_line frac = true).
  { apply strip_zeros_one_line. by rewrite one_line_append, zeros_one_line, str_int_one_line. }
  destruct (Qnum q <? 0); destruct frac; done.
Qed.

(** ** The log as a history *)






Section History.
Context `{F : Float}.


End History.

(** ** The program on the example host *)

Section OnTheExampleHost.
#[local] Existing Instance Q_Float.

(** C1 fails as stated: a [KeyboardInterrupt] raised inside the GPU query
    reaches the caller of [_get_gpu_info], and with no device present no
    logger call is made at all (the trace holds no [ELog]). *)
Lemma gpu_info_not_as_claimed :
  result_of (_get_gpu_info example_monitor example_time (Raises KeyboardInterrupt)) example_started
    = Raises KeyboardInterrupt ∧
  count_events is_log
    (trace (world_after (_get_gpu_info example_monitor example_time (Returns [])) example_started))
    = 0%nat.
Proof. split; vm_compute; reflexivity. Qed.

Lemma gpu_failure_leaves_log_witness :
  fs (world_after (_get_gpu_info example_monitor example_time (Raises (Exception "NVML not found")))
        example_started) = fs example_started.
Proof.
  apply (gpu_failure_leaves_log 5 LOG_FILENAME example_world example_started example_monitor
           example_time "NVML not found" example_started).
  reflexivity.
Defined.







Lemma pair_eta {A B : Type} (p : A * B) (a : A) : p.1 = a → p = (a, p.2).
Proof. destruct p as [x y]. cbn. by intros ->. Defined.

Lemma example_monitor_is_initialised :
  __init__ 5 LOG_FILENAME example_world = (Returns example_monitor, example_started).
Proof. reflexivity. Defined.

(** C3 fails as stated: after a run that an interrupt ended, and that
    returned normally, the log stream is still open; [run] releases nothing. *)
Lemma interrupted_run_keeps_the_stream_open :
  result_of (run example_monitor
               (example_env [example_tick (Returns []) (Raises KeyboardInterrupt)]))
    example_started = Returns Returned ∧
  elements (open_streams
    (world_after (run example_monitor
                    (example_env [example_tick (Returns []) (Raises KeyboardInterrupt)]))
       example_started)) = [LOG_FILENAME].
Proof. split; vm_compute; reflexivity. Qed.

Lemma interrupt_stops_the_monitor_witness :
  result_of (run example_monitor
               (example_env [example_tick (Returns [example_gpu]) (Returns tt);
                             example_tick (Returns []) (Raises KeyboardInterrupt)]))
    example_started = Returns Returned.
Proof.
  eapply (interrupt_stops_the_monitor 5 LOG_FILENAME example_world example_started example_monitor
            (example_env [example_tick (Returns [example_gpu]) (Returns tt);
                          example_tick (Returns []) (Raises KeyboardInterrupt)])
            example_started).
  - exact example_monitor_is_initialised.
  - apply pair_eta. vm_compute. reflexivity.
Defined.


Lemma tick_record_message_witness :
  ∃ old : string,
    fs (world_after (loop_body example_monitor (example_tick (Returns []) (Returns tt)))
          example_started) !! (LOG_FILENAME, 0%nat) =
    Some (old +:+ "2024-03-07 09:05:59 | INFO | CPU: 12.5% | RAM: 40.0% (1600.0MB Used) | GPU: 0.0% (N/A)"
              +:+ newline).
Proof.
  destruct (tick_record_message 5 LOG_FILENAME example_world example_started example_monitor
              (example_tick (Returns []) (Returns tt)) example_started
              (world_after (fetch_metrics example_monitor (example_tick (Returns []) (Returns tt)))
                 example_started)
              example_snapshot example_monitor_is_initialised eq_refl) as [_ [old Hold]].
  exists old. rewrite Hold. do 2 f_equal.
Defined.

Lemma example_providers_in_range :
  providers_in_range (example_tick (Returns [example_gpu]) (Returns tt)).
Proof.
  split; [|split].
  - intros c [= <-]. split; unfold fle; cbn; unfold Qle; cbn; lia.
  - intros ram [= <-]. repeat split; try (unfold fle; cbn; unfold Qle; cbn; lia); cbn; lia.
  - intros gpus [= <-]. apply Forall_cons_2; [|apply Forall_nil_2].
    split; unfold fle; cbn; unfold Qle; cbn; lia.
Defined.

Lemma snapshot_is_well_formed_witness :
  match result_of (fetch_metrics example_monitor (example_tick (Returns [example_gpu]) (Returns tt)))
          example_started with
  | Returns m => well_formed m
  | Raises _ => False
  end.
Proof.
  pose proof (snapshot_is_well_formed (L := Q_FloatLaws) example_monitor
                (example_tick (Returns [example_gpu]) (Returns tt)) example_started
                example_providers_in_range) as H.
  exact (proj1 H).
Defined.

(** The log right after the monitor is built on the example host: one empty
    file. *)
Lemma fresh_log_is_empty (i : nat) :
  content (logging.open_stream (monitor_handler LOG_FILENAME) example_world) (LOG_FILENAME, i)
  = ""%string.
Proof.
  unfold content. cbn [fs logging.open_stream set_fs set_open_streams example_world initial_world].
  rewrite lookup_open_append. case_decide; [reflexivity|]. by rewrite lookup_empty.
Defined.


Lemma fresh_log_is_well_formed (i : nat) :
  well_formed_log
    (content (logging.open_stream (monitor_handler LOG_FILENAME) example_world) (LOG_FILENAME, i)).
Proof. rewrite fresh_log_is_empty. split; [by left | reflexivity]. Defined.



Lemma log_never_ends_mid_line_witness :
  closed_by_newline
    (content (world_after (run example_monitor
                             (example_env [example_tick (Returns []) (Raises KeyboardInterrupt)]))
                example_started) (LOG_FILENAME, 0%nat)).
Proof.
  exact (proj1
    (log_never_ends_mid_line 5 LOG_FILENAME example_world example_started example_monitor
       (example_env [example_tick (Returns []) (Raises KeyboardInterrupt)])
       example_started example_monitor_is_initialised)).
Defined.

Lemma loop_is_left_only_by_an_exception_witness :
  result_of (run example_monitor
               (example_env [example_tick (Returns [example_gpu]) (Returns tt);
                             example_tick (Raises (Exception "NVML Shared Library Not Found"))
                               (Returns tt)]))
    example_started = Returns Running.
Proof.
  exact (proj1
    (loop_is_left_only_by_an_exception 5 LOG_FILENAME example_world example_started
       example_monitor
       (example_env [example_tick (Returns [example_gpu]) (Returns tt);
                     example_tick (Raises (Exception "NVML Shared Library Not Found"))
                       (Returns tt)])
       example_started example_monitor_is_initialised)).
Defined.

Lemma gpu_failure_reads_as_no_gpu_witness :
  fs (world_after (loop_body example_monitor
                     (example_tick (Raises (Exception "NVML Shared Library Not Found"))
                        (Returns tt))) example_started)
  = fs (world_after (loop_body example_monitor
                       (with_getGPUs (Returns [])
                          (example_tick (Raises (Exception "NVML Shared Library Not Found"))
                             (Returns tt)))) example_started).
Proof.
  exact (proj1 (proj2 (proj2
    (gpu_failure_reads_as_no_gpu 5 LOG_FILENAME example_world example_started example_monitor
       (example_tick (Raises (Exception "NVML Shared Library Not Found")) (Returns tt))
       "NVML Shared Library Not Found" example_started
       example_monitor_is_initialised eq_refl)))).
Defined.

Lemma record_is_written_before_the_console_witness :
  fs (world_after (loop_body example_monitor
                     {| now := example_time;
                        cpu_percent := Returns ((25 # 2)%Q : float);
                        virtual_memory := Returns example_ram;
                        getGPUs := Returns [];
                        stdout_write := Raises (Exception "Broken pipe");
                        stdout_flush := Returns tt;
                        sleep := Returns tt |}) example_started)
  = fs (logging.emit (monitor_handler LOG_FILENAME)
          (tick_record (example_tick (Returns []) (Returns tt)) example_snapshot)
          example_started).
Proof.
  exact (proj1
    (record_is_written_before_the_console 5 LOG_FILENAME example_world example_started
       example_monitor
       {| now := example_time;
          cpu_percent := Returns ((25 # 2)%Q : float);
          virtual_memory := Returns example_ram;
          getGPUs := Returns [];
          stdout_write := Raises (Exception "Broken pipe");
          stdout_flush := Returns tt;
          sleep := Returns tt |}
       example_started example_monitor_is_initialised)).
Defined.

Lemma header_is_exactly_two_lines_witness :
  one_line (str_OsInfo (os_info example_monitor)) = true.
Proof.
  exact (proj1
    (header_is_exactly_two_lines 5 LOG_FILENAME example_world example_started example_monitor
       example_time example_started example_monitor_is_initialised (or_introl eq_refl))).
Defined.

Lemma log_keeps_its_line_structure_witness :
  well_formed_log
    (content (world_after (run example_monitor
                             (example_env [example_tick (Returns [example_gpu]) (Returns tt);
                                           example_tick (Returns []) (Raises KeyboardInterrupt)]))
                (logging.open_stream (monitor_handler LOG_FILENAME) example_world))
       (LOG_FILENAME, 0%nat)).
Proof.
  exact (log_keeps_its_line_structure 5 LOG_FILENAME example_world example_started
           example_monitor
           (example_env [example_tick (Returns [example_gpu]) (Returns tt);
                         example_tick (Returns []) (Raises KeyboardInterrupt)])
           (logging.open_stream (monitor_handler LOG_FILENAME) example_world)
           example_monitor_is_initialised Q_str_one_line eq_refl fresh_log_is_well_formed 0%nat).
Defined.


End OnTheExampleHost.
